(** * NXGenie: session store, prompt builder, completion client, code extractor

    A shallow embedding of [NXGenie-App.py].  Python [str] values are
    sequences of Unicode code points, Python values that travel through the
    session state and the JSON files are a small dynamic value type, and the
    effects of the program (the [data/] directory, the Streamlit session
    state, the hosted chat client and [time.sleep]) are threaded explicitly. *)

From Stdlib Require Import NArith ZArith QArith List Ascii String Bool Lia.
From Stdlib Require Import DecimalString.
From stdpp Require Import base option list gmap strings sorting.

Set Warnings "-register-all".

Local Open Scope N_scope.
Local Open Scope list_scope.

(** ** Python strings *)

(** A [str] is a sequence of code points. *)
Abbreviation pystr := (list N).

(** A source literal, character by character. *)
Definition lit (s : string) : pystr :=
  List.map N_of_ascii (list_ascii_of_string s).

(** The escape [\n] of the source literals. *)
Definition nl : pystr := [10].

Definition in_range (lo hi c : N) : bool := (lo <=? c) && (c <=? hi).

Definition pystr_eqb (a b : pystr) : bool := bool_decide (a = b).

(** [s.startswith(p)], and the rest of [s] after [p]. *)
Fixpoint strip_prefix (p s : pystr) : option pystr :=
  match p, s with
  | [], _ => Some s
  | c :: p', d :: s' => if c =? d then strip_prefix p' s' else None
  | _ :: _, [] => None
  end.

Definition startswith (s p : pystr) : bool :=
  match strip_prefix p s with Some _ => true | None => false end.

Definition endswith (s p : pystr) : bool :=
  startswith (rev s) (rev p).

(** [p in s] for two strings. *)
Fixpoint contains (s p : pystr) : bool :=
  startswith s p ||
  match s with
  | [] => false
  | _ :: s' => contains s' p
  end.

(** [str.isspace] on one character: the code points of category Zs or of
    bidirectional class WS, B or S. *)
Definition isspace (c : N) : bool :=
  in_range 0x09 0x0D c || in_range 0x1C 0x20 c || (c =? 0x85) || (c =? 0xA0)
  || (c =? 0x1680) || in_range 0x2000 0x200A c || in_range 0x2028 0x2029 c
  || (c =? 0x202F) || (c =? 0x205F) || (c =? 0x3000).

Fixpoint lstrip (s : pystr) : pystr :=
  match s with
  | c :: s' => if isspace c then lstrip s' else s
  | [] => []
  end.

Definition rstrip (s : pystr) : pystr := rev (lstrip (rev s)).

(** [s.strip()] *)
Definition strip (s : pystr) : pystr := rstrip (lstrip s).

(** The letters and digits of ASCII, the class [A-Za-z0-9]. *)
Definition ascii_alnum (c : N) : bool :=
  in_range 0x30 0x39 c || in_range 0x41 0x5A c || in_range 0x61 0x7A c.

(** [str.isalnum] on the code points below 256 (ASCII and Latin-1). *)
Definition latin1_alnum (c : N) : bool :=
  ascii_alnum c
  || (c =? 0xAA) || in_range 0xB2 0xB3 c || (c =? 0xB5) || in_range 0xB9 0xBA c
  || in_range 0xBC 0xBE c || in_range 0xC0 0xD6 c || in_range 0xD8 0xF6 c
  || in_range 0xF8 0xFF c.

(** The parts of the interpreter's Unicode database that the program
    consults and that are too large to write out: which code points from
    256 on are alphanumeric, and [str.lower]. *)
Class UnicodeData := {
  alnum_above_latin1 : N -> bool;
  str_lower : pystr -> pystr;
}.

(** [ch.isalnum()] for a one-character string. *)
Definition isalnum `{UnicodeData} (c : N) : bool :=
  if c <? 256 then latin1_alnum c else alnum_above_latin1 c.

(** ** Python values *)

(** The values that live in the session state and in the session files;
    a float is kept as the rational it stands for. *)
Inductive pyval : Type :=
  | PNone
  | PBool (b : bool)
  | PInt (z : Z)
  | PFloat (x : Q)
  | PStr (s : pystr)
  | PList (l : list pyval)
  | PDict (d : list (pystr * pyval)).

(** Truth value of an object, as [if x:] tests it. *)
Definition truthy (v : pyval) : bool :=
  match v with
  | PNone => false
  | PBool b => b
  | PInt z => negb (z =? 0)%Z
  | PFloat x => negb (Qeq_bool x 0)
  | PStr s => negb (pystr_eqb s [])
  | PList l => match l with [] => false | _ => true end
  | PDict d => match d with [] => false | _ => true end
  end.

(** [v == s] for a string literal [s]. *)
Definition eq_str (v : pyval) (s : pystr) : bool :=
  match v with
  | PStr t => pystr_eqb t s
  | _ => false
  end.

(** Exceptions: the class and [str(e)]. *)
Inductive exn : Type :=
  | Exception (cls : string) (message : pystr).

Definition str_exn (e : exn) : pystr :=
  match e with Exception _ m => m end.

Inductive result (A : Type) : Type :=
  | Ok (a : A)
  | Raise (e : exn).
Arguments Ok {A} a.
Arguments Raise {A} e.

Definition rbind {A B} (r : result A) (k : A -> result B) : result B :=
  match r with
  | Ok a => k a
  | Raise e => Raise e
  end.

(** Lookup in a dictionary, kept as its items in insertion order. *)
Fixpoint dict_lookup (d : list (pystr * pyval)) (k : pystr) : option pyval :=
  match d with
  | [] => None
  | (k', v) :: d' => if pystr_eqb k' k then Some v else dict_lookup d' k
  end.

(** [d.get(k, default)] on a dictionary. *)
Definition dict_get (d : list (pystr * pyval)) (k : pystr) (dflt : pyval) : pyval :=
  default dflt (dict_lookup d k).

(** [v.get(k, default)] on any object: only a dictionary has the method. *)
Definition py_get (v : pyval) (k : pystr) (dflt : pyval) : result pyval :=
  match v with
  | PDict d => Ok (dict_get d k dflt)
  | _ => Raise (Exception "AttributeError" (lit "object has no attribute 'get'"))
  end.

(** [v[k]] for a string key [k]. *)
Definition py_getitem (v : pyval) (k : pystr) : result pyval :=
  match v with
  | PDict d =>
      match dict_lookup d k with
      | Some x => Ok x
      | None => Raise (Exception "KeyError" (lit "'" ++ k ++ lit "'"))
      end
  | PNone | PBool _ | PInt _ | PFloat _ =>
      Raise (Exception "TypeError" (lit "object is not subscriptable"))
  | PStr _ | PList _ =>
      Raise (Exception "TypeError" (lit "indices must be integers"))
  end.

(** The elements that [for m in v:] runs over. A dictionary yields its
    keys. *)
Definition py_iter (v : pyval) : result (list pyval) :=
  match v with
  | PList l => Ok l
  | PStr s => Ok (List.map (fun c => PStr [c]) s)
  | PDict d => Ok (List.map (fun kv => PStr (fst kv)) d)
  | PNone | PBool _ | PInt _ | PFloat _ =>
      Raise (Exception "TypeError" (lit "object is not iterable"))
  end.

(** [json.dump] and [json.load] of the standard library, between values
    and file text. [json_load] gives [None] on text that is not JSON. *)
Class JsonCodec := {
  json_dump : pyval -> pystr;
  json_load : pystr -> option pyval;
}.

(** ** Effects *)

(** A computation over a state [S] that returns or raises; the state
    reached is kept in both cases, as a Python exception keeps the
    mutations made before it. *)
Definition SE (S A : Type) : Type := S -> S * result A.

Definition se_ret {S A} (a : A) : SE S A := fun s => (s, Ok a).

Definition se_raise {S A} (e : exn) : SE S A := fun s => (s, Raise e).

Definition se_bind {S A B} (m : SE S A) (k : A -> SE S B) : SE S B :=
  fun s =>
    match m s with
    | (s', Ok a) => k a s'
    | (s', Raise e) => (s', Raise e)
    end.

Definition se_lift {S A} (r : result A) : SE S A := fun s => (s, r).

(** [try: body  except Exception as e: handler(e)] *)
Definition se_try {S A} (body : SE S A) (handler : exn -> SE S A) : SE S A :=
  fun s =>
    match body s with
    | (s', Ok a) => (s', Ok a)
    | (s', Raise e) => handler e s'
    end.

Declare Scope se_scope.
Delimit Scope se_scope with se.
Notation "'let*' x := m 'in' k" := (se_bind m (fun x => k))
  (at level 10, x name, m at level 100, k at level 200) : se_scope.
Notation "'do*' m 'in' k" := (se_bind m (fun _ => k))
  (at level 10, m at level 100, k at level 200) : se_scope.

(** What the script has drawn on the page: the calls with their arguments.
    [st.markdown] is also called with the answer of the model, which may
    be [None]. *)
Inductive ui_event : Type :=
  | StSuccess (body : pystr)
  | StError (body : pystr)
  | StInfo (body : pystr)
  | StMarkdown (body : option pystr)
  | StDownloadButton (label data file_name mime : pystr).

(** The Streamlit side of a script run: [st.session_state] and the page. *)
Record streamlit : Type := Streamlit {
  session_state : gmap pystr pyval;
  page : list ui_event;
}.

Definition st_write (ev : ui_event) : SE streamlit unit :=
  fun a => (Streamlit (session_state a) (page a ++ [ev]), Ok tt).

(** [st.session_state[k] = v] *)
Definition state_set (k : pystr) (v : pyval) : SE streamlit unit :=
  fun a => (Streamlit (<[k := v]> (session_state a)) (page a), Ok tt).

(** [st.session_state[k]] *)
Definition state_getitem (k : pystr) : SE streamlit pyval :=
  fun a =>
    match session_state a !! k with
    | Some v => (a, Ok v)
    | None => (a, Raise (Exception "KeyError" (lit "'" ++ k ++ lit "'")))
    end.

(** ** Session store *)

Definition DATA_DIR : pystr := lit "data".

(** [os.path.join(a, b)] of [posixpath]. *)
Definition os_path_join (a b : pystr) : pystr :=
  if startswith b (lit "/") then b
  else if pystr_eqb a [] || endswith a (lit "/") then a ++ b
  else a ++ lit "/" ++ b.

(** The files under the working directory, by path, and which paths can be
    opened for writing. *)
Record filesystem : Type := Filesystem {
  files : gmap pystr pystr;
  writable : pystr -> bool;
}.

Definition session_safe_char `{UnicodeData} (ch : N) : bool :=
  isalnum ch
  || existsb (pystr_eqb [ch]) [lit "-"; lit "_"; lit " "; lit "."].

Definition session_path `{UnicodeData} (name : pystr) : pystr :=
  let safe := List.filter session_safe_char name in
  os_path_join DATA_DIR (safe ++ lit ".json").

(** The record that [save_session] writes; [now] is the reading
    [datetime.datetime.utcnow().isoformat()] of the clock. *)
Definition session_payload (now : pystr) (state : gmap pystr pyval) : pyval :=
  PDict [
    (lit "created_at", PStr (now ++ lit "Z"));
    (lit "persistent_context",
       default (PStr (lit "")) (state !! lit "persistent_context"));
    (lit "messages", default (PList []) (state !! lit "messages"));
    (lit "nx_version", default (PStr (lit "")) (state !! lit "nx_version"));
    (lit "uploaded_files_meta",
       default (PList []) (state !! lit "uploaded_files_meta"))
  ].

Definition save_session `{UnicodeData} `{JsonCodec}
    (now : pystr) (name : pystr) (state : gmap pystr pyval)
    : SE filesystem unit :=
  fun fs =>
    let payload := session_payload now state in
    let path := session_path name in
    if writable fs path then
      (Filesystem (<[path := json_dump payload]> (files fs)) (writable fs),
       Ok tt)
    else
      (fs, Raise (Exception "OSError" (lit "cannot open " ++ path))).

(** [None] of the source is [PNone]. *)
Definition load_session `{UnicodeData} `{JsonCodec}
    (fs : filesystem) (name : pystr) : result pyval :=
  let path := session_path name in
  match files fs !! path with
  | None => Ok PNone
  | Some text =>
      match json_load text with
      | Some v => Ok v
      | None => Raise (Exception "JSONDecodeError" (lit "invalid JSON"))
      end
  end.

(** The body of [if st.button("Load"):], for the selected entry [sel]. *)
Definition on_load_click `{UnicodeData} `{JsonCodec}
    (fs : filesystem) (sel : pystr) : SE streamlit unit :=
  (if negb (pystr_eqb sel []) && negb (pystr_eqb sel (lit "(select)")) then
     let* loaded := se_lift (load_session fs sel) in
     if truthy loaded then
       let* v := se_lift (py_get loaded (lit "persistent_context") (PStr (lit ""))) in
       do* state_set (lit "persistent_context") v in
       let* v := se_lift (py_get loaded (lit "messages") (PList [])) in
       do* state_set (lit "messages") v in
       let* v := se_lift (py_get loaded (lit "nx_version") (PStr (lit "NX 2212"))) in
       do* state_set (lit "nx_version") v in
       let* v := se_lift (py_get loaded (lit "uploaded_files_meta") (PList [])) in
       do* state_set (lit "uploaded_files_meta") v in
       do* state_set (lit "current_session_name") (PStr sel) in
       st_write (StSuccess (lit "Session '" ++ sel
                   ++ lit "' loaded. (Files must be re-uploaded if required)"))
     else
       st_write (StError (lit "The session could not be loaded."))
   else se_ret tt)%se.

(** ** Prompt builder *)

(** [v.strip()]: only a string has the method. *)
Definition py_strip (v : pyval) : result pystr :=
  match v with
  | PStr s => Ok (strip s)
  | _ => Raise (Exception "AttributeError" (lit "object has no attribute 'strip'"))
  end.

Definition doc_url : pystr :=
  lit "https://docs.sw.siemens.com/en-US/doc/209349590/PL20221117716122093.nxopen_python_ref".

Definition build_system_prompt (state : gmap pystr pyval) : result pystr :=
  rbind (py_strip (default (PStr (lit "")) (state !! lit "persistent_context")))
  (fun ctx =>
  rbind (py_strip (default (PStr (lit "")) (state !! lit "nx_version")))
  (fun nx_ver =>
  let base :=
    lit "You are an expert assistant in NXOpen (Python) for Siemens NX." ++ nl
    ++ lit "Always use and respect the official NXOpen Python documentation when reasoning:" ++ nl
    ++ doc_url ++ nl ++ nl
    ++ lit "Act as a reviewer and improver of journals/code: clean, documented, robust, and ready for integration." ++ nl
    ++ lit "Compatibility target: **" ++ nx_ver
    ++ lit "**. Avoid using APIs or namespaces incompatible with that version." ++ nl ++ nl
    ++ lit "remove any user movements inside of the code that got recorded in the journal." ++ nl
  in
  let base :=
    if negb (pystr_eqb ctx []) then
      base ++ lit "PERMANENT INSTRUCTIONS TO FOLLOW:" ++ nl ++ ctx ++ nl ++ nl
    else base
  in
  let base :=
    base ++
    (lit "Recommended response format:" ++ nl
     ++ lit "1) Brief summary of what the code does." ++ nl
     ++ lit "2) List of issues/improvements." ++ nl
     ++ lit "3) Proposed code (a single block with the complete code, including imports/using if applicable)." ++ nl
     ++ lit "4) Integration notes for NX." ++ nl)
  in
  Ok base)).

(** ** Completion client *)

(** The sidebar widgets that the calls read. *)
Record sidebar : Type := Sidebar {
  api_key : pystr;
  model : pystr;
  temperature : Q;
  max_tokens : Z;
}.

Record request : Type := Request {
  req_model : pystr;
  req_messages : list pyval;
  req_temperature : Q;
  req_max_tokens : Z;
}.

(** A client object with state [C]. One call to
    [client.chat.completions.create(...)] followed by
    [resp.choices[0].message.content] gives the content, which is a string
    or [None], or raises. *)
Class ChatClient (C : Type) := {
  chat_create : request -> C -> C * result (option pystr);
}.

(** What the outside world sees of the client code. *)
Inductive api_event : Type :=
  | ApiCall (req : request)
  | Sleep (seconds : Q).

Record api (C : Type) : Type := Api {
  client : C;
  trace : list api_event;
}.
Arguments Api {C} client trace.
Arguments client {C} a.
Arguments trace {C} a.

Definition api_create `{ChatClient C} (req : request)
    : SE (api C) (option pystr) :=
  fun w =>
    let (c', r) := chat_create req (client w) in
    (Api c' (trace w ++ [ApiCall req]), r).

(** [time.sleep(seconds)] *)
Definition time_sleep {C} (seconds : Q) : SE (api C) unit :=
  fun w => (Api (client w) (trace w ++ [Sleep seconds]), Ok tt).

(** [str(last_err)], where [last_err] starts as [None]. *)
Definition str_last_err (last_err : option exn) : pystr :=
  match last_err with
  | Some e => str_exn e
  | None => lit "None"
  end.

(** The loop [for attempt in attempts:] and the [raise] after it. *)
Fixpoint call_openai_from `{ChatClient C} (attempts : list nat)
    (last_err : option exn) (req : request) : SE (api C) (option pystr) :=
  match attempts with
  | [] =>
      se_raise (Exception "RuntimeError"
                  (lit "Contact OpenAI: " ++ str_last_err last_err))
  | _ :: attempts' =>
      se_try (api_create req)
        (fun e =>
           let last_err := Some e in
           (do* time_sleep 1.2%Q in
            call_openai_from attempts' last_err req)%se)
  end.

Definition call_openai `{ChatClient C} (cfg : sidebar) (msgs : list pyval)
    : SE (api C) (option pystr) :=
  call_openai_from (seq 0 3) None
    (Request (model cfg) msgs (temperature cfg) (max_tokens cfg)).

(** ** Code extractor *)

(** The fragment of [re] patterns that the program uses, matched by
    backtracking. *)
Inductive atom : Type :=
  | AChar (c : N)
  | AClass (p : N -> bool)
  | AAny.

Inductive regex : Type :=
  | RAtom (a : atom)
  | RSeq (r1 r2 : regex)
  | RStar (greedy : bool) (a : atom)
  | RGroup (r : regex)
  | REmpty.

(** [AAny] is [.] under [re.DOTALL]: every character, the newline too. *)
Definition atom_accepts (a : atom) (c : N) : bool :=
  match a with
  | AChar d => c =? d
  | AClass p => p c
  | AAny => true
  end.

(** One way of matching at the start of a string: the text consumed, the
    groups captured (group 1 first) and the text left. *)
Record rmatch : Type := RMatch {
  consumed : pystr;
  groups : list pystr;
  rest : pystr;
}.

(** The splits of [s] after a run of characters of [a], shortest run
    first. *)
Fixpoint star_runs (a : atom) (s : pystr) : list (pystr * pystr) :=
  ([], s) ::
  match s with
  | c :: s' =>
      if atom_accepts a c
      then List.map (fun pr => (c :: fst pr, snd pr)) (star_runs a s')
      else []
  | [] => []
  end.

(** All the ways of matching [r] at the start of [s], in the order in
    which the backtracking matcher tries them. *)
Fixpoint matches_at (r : regex) (s : pystr) : list rmatch :=
  match r with
  | RAtom a =>
      match s with
      | c :: s' => if atom_accepts a c then [RMatch [c] [] s'] else []
      | [] => []
      end
  | RSeq r1 r2 =>
      flat_map (fun m1 =>
        List.map (fun m2 =>
          RMatch (consumed m1 ++ consumed m2) (groups m1 ++ groups m2) (rest m2))
          (matches_at r2 (rest m1)))
        (matches_at r1 s)
  | RStar greedy a =>
      List.map (fun pr => RMatch (fst pr) [] (snd pr))
        (if greedy then rev (star_runs a s) else star_runs a s)
  | RGroup r1 =>
      List.map (fun m => RMatch (consumed m) (consumed m :: groups m) (rest m))
        (matches_at r1 s)
  | REmpty => [RMatch [] [] s]
  end.

(** [re.search(r, s)]: the first way of matching at the leftmost position
    that has one. *)
Fixpoint re_search (r : regex) (s : pystr) : option rmatch :=
  match matches_at r s with
  | m :: _ => Some m
  | [] =>
      match s with
      | [] => None
      | _ :: s' => re_search r s'
      end
  end.

(** A literal piece of a pattern. *)
Fixpoint rlit (p : pystr) : regex :=
  match p with
  | [] => REmpty
  | c :: p' => RSeq (RAtom (AChar c)) (rlit p')
  end.

(** The class [[a-zA-Z0-9_+-]]. *)
Definition tag_char (c : N) : bool :=
  in_range 0x61 0x7A c || in_range 0x41 0x5A c || in_range 0x30 0x39 c
  || (c =? 0x5F) || (c =? 0x2B) || (c =? 0x2D).

Definition fence : pystr := lit "```".

(** The pattern [```[a-zA-Z0-9_+-]*\n(.*?)```] *)
Definition code_block_re : regex :=
  RSeq (rlit fence)
    (RSeq (RStar true (AClass tag_char))
       (RSeq (RAtom (AChar 10))
          (RSeq (RGroup (RStar false AAny)) (rlit fence)))).

(** [m.group(1)] *)
Definition group1 (m : rmatch) : pystr := nth 0 (groups m) [].

Definition extract_code_block (text : pystr) : option pystr :=
  match re_search code_block_re text with
  | Some m => Some (strip (group1 m))
  | None => None
  end.

(** ** The Clean & Improve turn *)

Definition in_app {C A} (m : SE streamlit A) : SE (streamlit * api C) A :=
  fun w => let (a', r) := m (fst w) in ((a', snd w), r).

Definition in_api {C A} (m : SE (api C) A) : SE (streamlit * api C) A :=
  fun w => let (x', r) := m (snd w) in ((fst w, x'), r).

(** [st.stop()] ends the script run. *)
Definition ensure_client (key : pystr) : SE streamlit unit :=
  if pystr_eqb key [] then
    (do* st_write (StError ([0x1F511] ++ lit " API Key missing. Place it in the sidebar or in your .env file (OPENAI_API_KEY).")) in
     se_raise (Exception "StopException" []))%se
  else se_ret tt.

(** [sep.join(parts)] *)
Fixpoint str_join (sep : pystr) (parts : list pystr) : pystr :=
  match parts with
  | [] => []
  | [p] => p
  | p :: ps => p ++ sep ++ str_join sep ps
  end.

Fixpoint files_lookup (fs : list (pystr * pystr)) (k : pystr) : option pystr :=
  match fs with
  | [] => None
  | (k', v) :: fs' => if pystr_eqb k' k then Some v else files_lookup fs' k
  end.

(** [x and ...] on an optional string: [None] and the empty string are
    false. *)
Definition truthy_opt (x : option pystr) : bool :=
  match x with
  | Some s => negb (pystr_eqb s [])
  | None => false
  end.

(** The text of the user message that carries the code. [files] is the
    dictionary of uploads, name to text, in upload order. *)
Definition code_message (files : list (pystr * pystr)) (join_mode : pystr)
    (selected : option pystr) : result pystr :=
  if pystr_eqb join_mode (lit "Process SELECTED file") && truthy_opt selected then
    let sel := default [] selected in
    match files_lookup files sel with
    | Some code_text =>
        Ok (lit "Received code (file: " ++ sel ++ lit "):" ++ nl
            ++ lit "```auto" ++ nl ++ code_text ++ nl ++ lit "```")
    | None => Raise (Exception "KeyError" (lit "'" ++ sel ++ lit "'"))
    end
  else
    let parts :=
      List.map (fun f => lit "// ==== ARCHIVO: " ++ fst f ++ lit " ====" ++ nl ++ snd f)
        files in
    let unified := str_join (nl ++ nl) parts in
    Ok (lit "Received code (multiple files unified):" ++ nl
        ++ lit "```auto" ++ nl ++ unified ++ nl ++ lit "```").

Definition message (role content : pystr) : pyval :=
  PDict [(lit "role", PStr role); (lit "content", PStr content)].

(** The loop over the chat history: the messages it appends. *)
Fixpoint replay_history (history : list pyval) : result (list pyval) :=
  match history with
  | [] => Ok []
  | m :: history' =>
      rbind (py_getitem m (lit "role")) (fun role =>
      rbind (replay_history history') (fun msgs =>
      Ok (if eq_str role (lit "user") || eq_str role (lit "assistant")
          then m :: msgs else msgs)))
  end.

Definition final_instruction : pystr :=
  lit "Process the file(s) respecting the persistent context and the indicated NX version. Return the final code in a single block.".

(** The list [msgs] that the handler builds. *)
Definition assemble_messages (code_msg : pystr) : SE streamlit (list pyval) :=
  (let* prompt := (fun a => (a, build_system_prompt (session_state a))) in
   let* messages := state_getitem (lit "messages") in
   let* history := se_lift (py_iter messages) in
   let* replayed := se_lift (replay_history history) in
   se_ret ([message (lit "system") prompt] ++ replayed
           ++ [message (lit "user") code_msg]
           ++ [message (lit "user") final_instruction]))%se.

(** [str(n)] for a length or a position. *)
Definition str_of_nat (n : nat) : pystr :=
  lit (NilEmpty.string_of_uint (Nat.to_uint n)).

(** A surrogate code point: it has no UTF-8 bytes. *)
Definition is_surrogate (c : N) : bool := in_range 0xD800 0xDFFF c.

(** The UTF-8 bytes of a character that is not a surrogate. A [str] holds
    code points up to [0x10FFFF]. *)
Definition utf8_char (c : N) : list N :=
  if c <? 0x80 then [c]
  else if c <? 0x800 then [0xC0 + c / 64; 0x80 + c mod 64]
  else if c <? 0x10000 then
    [0xE0 + c / 4096; 0x80 + (c / 64) mod 64; 0x80 + c mod 64]
  else
    [0xF0 + c / 262144; 0x80 + (c / 4096) mod 64; 0x80 + (c / 64) mod 64;
     0x80 + c mod 64].

(** The surrogates at the start of [s]: how many. *)
Fixpoint surrogate_run (s : pystr) : nat :=
  match s with
  | c :: s' => if is_surrogate c then S (surrogate_run s') else O
  | [] => O
  end.

Definition hex_digit (d : N) : N := if d <? 10 then 48 + d else 87 + d.

(** The error of the encoder at the surrogate [c] in position [pos],
    followed by [s']. The error covers the whole run of surrogates. *)
Definition surrogate_error (pos : nat) (c : N) (s' : pystr) : exn :=
  Exception "UnicodeEncodeError"
    (match surrogate_run s' with
     | O =>
         lit "'utf-8' codec can't encode character '\u"
         ++ [hex_digit (c / 4096); hex_digit ((c / 256) mod 16);
             hex_digit ((c / 16) mod 16); hex_digit (c mod 16)]
         ++ lit "' in position " ++ str_of_nat pos
     | S more =>
         lit "'utf-8' codec can't encode characters in position "
         ++ str_of_nat pos ++ lit "-" ++ str_of_nat (pos + S more)
     end
     ++ lit ": surrogates not allowed").

Fixpoint utf8_encode_from (pos : nat) (s : pystr) : result (list N) :=
  match s with
  | [] => Ok []
  | c :: s' =>
      if is_surrogate c then Raise (surrogate_error pos c s')
      else rbind (utf8_encode_from (S pos) s') (fun bs => Ok (utf8_char c ++ bs))
  end.

(** [s.encode("utf-8")]: the bytes, as numbers below 256. *)
Definition utf8_encode (s : pystr) : result (list N) := utf8_encode_from 0 s.

(** The part of the handler after the result is shown, for a result that
    is a string. The button carries the bytes of the extracted code. *)
Definition offer_download `{UnicodeData} (selected : option pystr)
    (result : pystr) : SE streamlit unit :=
  let extracted := extract_code_block result in
  if truthy_opt extracted then
    let out_name := lit "improved_code.py" in
    let out_name :=
      if truthy_opt selected
         && endswith (str_lower (default [] selected)) (lit ".py")
      then lit "improved_code.py" else out_name in
    (let* data := se_lift (utf8_encode (default [] extracted)) in
     st_write (StDownloadButton
                 ([0x2B07; 0xFE0F] ++ lit " Download proposed code")
                 data out_name (lit "text/plain")))%se
  else
    st_write (StInfo (lit "No code block formatted with ```. Copy and paste manually.")).

(** The subject of [re.search] must be a string. The text of the error is
    that of Python 3.11 and later. *)
Definition re_subject (text : option pystr) : result pystr :=
  match text with
  | Some s => Ok s
  | None =>
      Raise (Exception "TypeError"
               (lit "expected string or bytes-like object, got 'NoneType'"))
  end.

(** The body of [if st.button("Clean & Improve"):]. *)
Definition clean_and_improve `{UnicodeData} `{ChatClient C}
    (cfg : sidebar) (files : list (pystr * pystr)) (join_mode : pystr)
    (selected : option pystr) : SE (streamlit * api C) unit :=
  (do* in_app (ensure_client (api_key cfg)) in
   let* code_msg := se_lift (code_message files join_mode selected) in
   let* msgs := in_app (assemble_messages code_msg) in
   se_try
     (let* result := in_api (call_openai cfg msgs) in
      do* in_app (st_write (StSuccess (lit "Done! Check the result below."))) in
      do* in_app (st_write (StMarkdown (Some (lit "### " ++ [0x1F4C4] ++ lit " Result")))) in
      do* in_app (st_write (StMarkdown result)) in
      let* text := se_lift (re_subject result) in
      in_app (offer_download selected text))
     (fun e =>
        in_app (st_write (StError (lit "Ops! An error occurred: " ++ str_exn e)))))%se.

(** ** Specification-side definitions *)

(** The character class [[A-Za-z0-9\-_ .]] of the specification. *)
Definition class_char (c : N) : bool :=
  ascii_alnum c || (c =? 0x2D) || (c =? 0x5F) || (c =? 0x20) || (c =? 0x2E).

(** The session state in which the two inputs of the prompt builder are
    [ctx] and [ver]. *)
Definition with_inputs (ctx ver : pystr) (state : gmap pystr pyval)
    : gmap pystr pyval :=
  <[lit "persistent_context" := PStr ctx]> (<[lit "nx_version" := PStr ver]> state).

(** The pieces of the prompt, in the order of the specification. *)
Definition role_and_reference : pystr :=
  lit "You are an expert assistant in NXOpen (Python) for Siemens NX." ++ nl
  ++ lit "Always use and respect the official NXOpen Python documentation when reasoning:" ++ nl
  ++ doc_url ++ nl ++ nl
  ++ lit "Act as a reviewer and improver of journals/code: clean, documented, robust, and ready for integration." ++ nl.

Definition compatibility_line (ver : pystr) : pystr :=
  lit "Compatibility target: **" ++ ver
  ++ lit "**. Avoid using APIs or namespaces incompatible with that version." ++ nl ++ nl.

Definition journal_directive : pystr :=
  lit "remove any user movements inside of the code that got recorded in the journal." ++ nl.

Definition instructions_header : pystr :=
  lit "PERMANENT INSTRUCTIONS TO FOLLOW:" ++ nl.

Definition instructions_section (ctx : pystr) : pystr :=
  instructions_header ++ ctx ++ nl ++ nl.

Definition response_format : pystr :=
  lit "Recommended response format:" ++ nl
  ++ lit "1) Brief summary of what the code does." ++ nl
  ++ lit "2) List of issues/improvements." ++ nl
  ++ lit "3) Proposed code (a single block with the complete code, including imports/using if applicable)." ++ nl
  ++ lit "4) Integration notes for NX." ++ nl.

(** The state after the five assignments of a successful load. *)
Definition restored (d : list (pystr * pyval)) (sel : pystr)
    (state : gmap pystr pyval) : gmap pystr pyval :=
  <[lit "current_session_name" := PStr sel]>
  (<[lit "uploaded_files_meta" := dict_get d (lit "uploaded_files_meta") (PList [])]>
  (<[lit "nx_version" := dict_get d (lit "nx_version") (PStr (lit "NX 2212"))]>
  (<[lit "messages" := dict_get d (lit "messages") (PList [])]>
  (<[lit "persistent_context" := dict_get d (lit "persistent_context") (PStr (lit ""))]>
     state)))).

(** A history message whose role is [r]. *)
Definition has_role (r : pystr) (m : pyval) : bool :=
  match py_getitem m (lit "role") with
  | Ok v => eq_str v r
  | Raise _ => false
  end.

Definition replayable (m : pyval) : bool :=
  has_role (lit "user") m || has_role (lit "assistant") m.

(** ** The blocks that the pattern matches *)

(** The tag characters at the start of [s] are skipped. *)
Fixpoint skip_tag (s : pystr) : pystr :=
  match s with
  | c :: s' => if tag_char c then skip_tag s' else s
  | [] => []
  end.

(** The text of [s] before its first triple backtick. *)
Fixpoint until_fence (s : pystr) : option pystr :=
  if startswith s fence then Some []
  else
    match s with
    | [] => None
    | c :: s' => option_map (cons c) (until_fence s')
    end.

(** The body of the block that opens at the very start of [s]. *)
Definition block_at (s : pystr) : option pystr :=
  match strip_prefix fence s with
  | None => None
  | Some s1 =>
      match strip_prefix nl (skip_tag s1) with
      | Some s2 => until_fence s2
      | None => None
      end
  end.

(** [s] opens with a block of the shape that the pattern matches: a triple
    backtick, zero or more characters of the class [[a-zA-Z0-9_+-]], a line
    feed right after them, the body, and the first triple backtick after
    the line feed. This is narrower than the fenced block of the
    specification, which [spec_extract] follows. *)
Definition fenced_block (s tag body post : pystr) : Prop :=
  s = fence ++ tag ++ nl ++ body ++ fence ++ post
  /\ forallb tag_char tag = true
  /\ forall b1 b2, body = b1 ++ b2 -> b2 <> [] ->
       startswith (b2 ++ fence ++ post) fence = false.

(** The body of the leftmost block of [s]. *)
Fixpoint first_block (s : pystr) : option pystr :=
  match block_at s with
  | Some body => Some body
  | None =>
      match s with
      | [] => None
      | _ :: s' => first_block s'
      end
  end.

(** ** The extractor in the words of the specification *)

(** The text after the first triple backtick of [s]. *)
Definition after_fence (s : pystr) : option pystr :=
  match until_fence s with
  | Some pre => Some (drop (length pre + 3) s)
  | None => None
  end.

(** A language tag read as a word: no white space and no backtick. The
    other reading is the class of the pattern, [skip_tag]. *)
Definition word_char (c : N) : bool := negb (isspace c) && negb (c =? 96).

Fixpoint skip_word (s : pystr) : pystr :=
  match s with
  | c :: s' => if word_char c then skip_word s' else s
  | [] => []
  end.

(** The extraction that the specification describes. The first triple
    backtick of the text opens the first fenced block; a language tag may
    follow it, which [skip] passes over; the content runs to the first
    triple backtick after that, the closing fence; what is returned is the
    content without the white space at its ends. A text without a fenced
    block gives nothing. *)
Definition spec_extract (skip : pystr -> pystr) (text : pystr)
    : option pystr :=
  match after_fence text with
  | Some opened =>
      match until_fence (skip opened) with
      | Some content => Some (strip content)
      | None => None
      end
  | None => None
  end.

(** The fences of a text pair up in order: the first triple backtick opens
    a span, the next one after it closes the span, the one after that opens
    again. The list holds what follows each opening fence. *)
Fixpoint opening_fences_from (fuel : nat) (s : pystr) : list pystr :=
  match fuel with
  | O => []
  | S fuel' =>
      match after_fence s with
      | Some opened =>
          opened ::
          match after_fence opened with
          | Some closed => opening_fences_from fuel' closed
          | None => []
          end
      | None => []
      end
  end.

Definition opening_fences (s : pystr) : list pystr :=
  opening_fences_from (length s) s.

(** No opening fence of the text, taken with its language tag, is
    immediately followed by a newline. *)
Definition no_opening_newline (skip : pystr -> pystr) (text : pystr) : bool :=
  forallb (fun opened => negb (startswith (skip opened) nl))
    (opening_fences text).

(** ** Instances for the examples *)

(** A Unicode database cut off after Latin-1, with the ASCII part of
    [str.lower]. *)
#[local] Instance latin1_only : UnicodeData := {|
  alnum_above_latin1 := fun _ => false;
  str_lower := List.map (fun c => if in_range 0x41 0x5A c then c + 32 else c);
|}.

Definition sample_state : gmap pystr pyval :=
  <[lit "persistent_context" := PStr (lit "keep names in English")]>
  (<[lit "messages" := PList [message (lit "user") (lit "hello")]]>
  (<[lit "nx_version" := PStr (lit "NX 2212")]>
  (<[lit "uploaded_files_meta" :=
       PList [PDict [(lit "name", PStr (lit "A.py")); (lit "chars", PInt 10)]]]>
  (<[lit "current_session_name" := PStr (lit "sesion-nx")]> ∅)))).

Definition sample_now : pystr := lit "2024-05-01T10:00:00.000000".

(** A JSON string literal of plain characters. *)
Definition quoted (s : pystr) : pystr := [34] ++ s ++ [34].

(** The session file of [sample_state], as [json.dump] lays it out with
    [indent=2]. *)
Definition sample_text : pystr :=
  lit "{" ++ nl
  ++ lit "  " ++ quoted (lit "created_at") ++ lit ": "
       ++ quoted (lit "2024-05-01T10:00:00.000000Z") ++ lit "," ++ nl
  ++ lit "  " ++ quoted (lit "persistent_context") ++ lit ": "
       ++ quoted (lit "keep names in English") ++ lit "," ++ nl
  ++ lit "  " ++ quoted (lit "messages") ++ lit ": [" ++ nl
  ++ lit "    {" ++ nl
  ++ lit "      " ++ quoted (lit "role") ++ lit ": " ++ quoted (lit "user") ++ lit "," ++ nl
  ++ lit "      " ++ quoted (lit "content") ++ lit ": " ++ quoted (lit "hello") ++ nl
  ++ lit "    }" ++ nl
  ++ lit "  ]," ++ nl
  ++ lit "  " ++ quoted (lit "nx_version") ++ lit ": " ++ quoted (lit "NX 2212") ++ lit "," ++ nl
  ++ lit "  " ++ quoted (lit "uploaded_files_meta") ++ lit ": [" ++ nl
  ++ lit "    {" ++ nl
  ++ lit "      " ++ quoted (lit "name") ++ lit ": " ++ quoted (lit "A.py") ++ lit "," ++ nl
  ++ lit "      " ++ quoted (lit "chars") ++ lit ": 10" ++ nl
  ++ lit "    }" ++ nl
  ++ lit "  ]" ++ nl
  ++ lit "}".

(** A codec that knows this one file: enough to run the examples. Any
    other text is rejected. *)
#[local] Instance sample_codec : JsonCodec := {|
  json_dump := fun _ => sample_text;
  json_load := fun text =>
    if pystr_eqb text sample_text
    then Some (session_payload sample_now sample_state)
    else None;
|}.

Definition empty_fs : filesystem := Filesystem ∅ (fun _ => true).

(** A store with one file that is not JSON. *)
Definition broken_fs : filesystem :=
  Filesystem {[ lit "data/broken.json" := lit "{not json" ]} (fun _ => true).

(** The calls in a trace. *)
Definition is_call (ev : api_event) : bool :=
  match ev with
  | ApiCall _ => true
  | Sleep _ => false
  end.

Definition api_calls (tr : list api_event) : nat :=
  length (List.filter is_call tr).

(** A name with a letter outside ASCII, [caf] followed by e-acute. *)
Definition cafe : pystr := lit "caf" ++ [0xE9].

(** A client that plays back a script of outcomes, one per call. *)
#[local] Instance scripted_client
    : ChatClient (list (result (option pystr))) := {|
  chat_create := fun _ script =>
    match script with
    | r :: script' => (script', r)
    | [] => ([], Raise (Exception "APIConnectionError" (lit "Connection error.")))
    end;
|}.

Definition sample_cfg : sidebar :=
  Sidebar (lit "sk-test") (lit "gpt-4o-mini") 0.2%Q 1600%Z.

Definition sample_files : list (pystr * pystr) :=
  [(lit "A.py", lit "print(1)")].

(** A history with a system message among the others. *)
Definition sample_history : list pyval :=
  [message (lit "system") (lit "old prompt");
   message (lit "user") (lit "hello");
   message (lit "assistant") (lit "hi")].

Definition sample_turn_state : gmap pystr pyval :=
  <[lit "messages" := PList sample_history]> sample_state.

(** ** Checks by computation *)

(** [P] holds of one of the first [n] suffixes of [s]. *)
Fixpoint any_suffix_before (P : pystr -> bool) (n : nat) (s : pystr) : bool :=
  match n with
  | O => false
  | S n' =>
      P s ||
      match s with
      | [] => false
      | _ :: s' => any_suffix_before P n' s'
      end
  end.

(** A fence, tag characters and a newline start [s]. *)
Definition opens_with_newline (s : pystr) : bool :=
  match strip_prefix fence s with
  | Some s1 => startswith (skip_tag s1) nl
  | None => false
  end.

Definition opens_block (s : pystr) : bool :=
  match block_at s with
  | Some _ => true
  | None => false
  end.

(** ** The rest of the script *)

(** *** Listing the sessions *)

(** The first component of a relative path. *)
Fixpoint first_component (s : pystr) : pystr :=
  match s with
  | [] => []
  | c :: s' => if c =? 47 then [] else c :: first_component s'
  end.

(** The entry of the directory [d] through which the path [p] goes. *)
Definition dir_entry (d p : pystr) : option pystr :=
  match strip_prefix (d ++ lit "/") p with
  | Some rest =>
      match first_component rest with
      | [] => None
      | e => Some e
      end
  | None => None
  end.

(** [os.listdir(d)]: the entries of [d], each once, in an order that the
    system chooses. *)
Definition os_listdir (fs : filesystem) (d : pystr) : list pystr :=
  elements
    (list_to_set (omap (dir_entry d) (elements (dom (files fs)))) : gset pystr).

(** The order of [str]: by code points, a proper prefix first. *)
Fixpoint pystr_leb (a b : pystr) : bool :=
  match a, b with
  | [], _ => true
  | _ :: _, [] => false
  | x :: a', y :: b' =>
      if x <? y then true
      else if y <? x then false
      else pystr_leb a' b'
  end.

Definition pystr_le (a b : pystr) : Prop := pystr_leb a b = true.

#[local] Instance pystr_le_dec (a b : pystr) : Decision (pystr_le a b) :=
  decide (pystr_leb a b = true).

(** [sorted(l)] on strings. The order is total and antisymmetric, so the
    sorted list does not depend on the sorting method. *)
Definition sorted (l : list pystr) : list pystr := merge_sort pystr_le l.

(** [f[:-5]] *)
Definition drop_suffix5 (f : pystr) : pystr := take (length f - 5) f.

(** A directory is there when something lies under it; an empty one and a
    missing one both list as nothing. *)
Definition list_sessions (fs : filesystem) : list pystr :=
  if bool_decide (os_listdir fs DATA_DIR = []) then []
  else
    let files :=
      List.map drop_suffix5
        (List.filter (fun f => endswith f (lit ".json")) (os_listdir fs DATA_DIR)) in
    sorted files.

(** *** Initial status *)

(** [if k not in st.session_state: st.session_state[k] = v] *)
Definition state_init (k : pystr) (v : pyval) (state : gmap pystr pyval)
    : gmap pystr pyval :=
  match state !! k with
  | Some _ => state
  | None => <[k := v]> state
  end.

Definition initial_status (state : gmap pystr pyval) : gmap pystr pyval :=
  let state := state_init (lit "messages") (PList []) state in
  let state := state_init (lit "persistent_context") (PStr (lit "")) state in
  let state := state_init (lit "uploaded_files") (PDict []) state in
  let state := state_init (lit "uploaded_files_meta") (PList []) state in
  let state := state_init (lit "nx_version") (PStr (lit "NX 2212")) state in
  state_init (lit "current_session_name") (PStr (lit "sesion-nx")) state.

(** *** Uploads *)

(** [d[k] = v] on a dictionary: a key that is there keeps its place. *)
Fixpoint dict_set (d : list (pystr * pyval)) (k : pystr) (v : pyval)
    : list (pystr * pyval) :=
  match d with
  | [] => [(k, v)]
  | (k', v') :: d' =>
      if pystr_eqb k' k then (k', v) :: d' else (k', v') :: dict_set d' k v
  end.

(** [x[k] = v] on any object. *)
Definition py_setitem (x : pyval) (k : pystr) (v : pyval) : result pyval :=
  match x with
  | PDict d => Ok (PDict (dict_set d k v))
  | PList _ =>
      Raise (Exception "TypeError" (lit "list indices must be integers"))
  | _ =>
      Raise (Exception "TypeError" (lit "object does not support item assignment"))
  end.

(** [x.append(v)] on any object. *)
Definition py_append (x : pyval) (v : pyval) : result pyval :=
  match x with
  | PList l => Ok (PList (l ++ [v]))
  | _ => Raise (Exception "AttributeError" (lit "object has no attribute 'append'"))
  end.

(** The record of one upload in [uploaded_files_meta]. *)
Definition upload_meta (up : pystr * pystr) : pyval :=
  PDict [(lit "name", PStr (fst up));
         (lit "chars", PInt (Z.of_nat (length (snd up))))].

(** The body of [for up in uploads:]. An upload is given by its name and by
    the text that decoding its bytes yields. *)
Definition upload_one (up : pystr * pystr) : SE streamlit unit :=
  (let text := snd up in
   let* files := state_getitem (lit "uploaded_files") in
   let* files := se_lift (py_setitem files (fst up) (PStr text)) in
   do* state_set (lit "uploaded_files") files in
   let* meta := state_getitem (lit "uploaded_files_meta") in
   let* meta := se_lift (py_append meta (upload_meta up)) in
   state_set (lit "uploaded_files_meta") meta)%se.

Fixpoint for_each {S A} (body : A -> SE S unit) (l : list A) : SE S unit :=
  match l with
  | [] => se_ret tt
  | x :: l' => se_bind (body x) (fun _ => for_each body l')
  end.

(** The body of [if uploads:] in the sidebar. *)
Definition on_upload (uploads : list (pystr * pystr)) : SE streamlit unit :=
  (match uploads with
   | [] => se_ret tt
   | _ :: _ =>
       do* state_set (lit "uploaded_files") (PDict []) in
       do* state_set (lit "uploaded_files_meta") (PList []) in
       do* for_each upload_one uploads in
       st_write (StSuccess (str_of_nat (length uploads)
                            ++ lit " archivo(s) cargado(s)."))
   end)%se.

(** The uploads as the Clean & Improve handler reads them: the items of
    [uploaded_files], name and text. *)
Definition uploaded_items (state : gmap pystr pyval) : list (pystr * pystr) :=
  match default (PDict []) (state !! lit "uploaded_files") with
  | PDict d =>
      omap (fun kv => match snd kv with
                      | PStr s => Some (fst kv, s)
                      | _ => None
                      end) d
  | _ => []
  end.

(** The header and text of one file in the unified payload. *)
Definition unified_part (f : pystr * pystr) : pystr :=
  lit "// ==== ARCHIVO: " ++ fst f ++ lit " ====" ++ nl ++ snd f.

(** A character that is never kept in a file name. *)
Definition path_separator (c : N) : bool :=
  (c =? 47) || (c =? 92) || (c =? 0).

(** The number of sleeps in a trace. *)
Definition api_sleeps (tr : list api_event) : nat :=
  length (List.filter (fun ev => negb (is_call ev)) tr).

(** *** Data for the examples *)


(** A store with one session file, [sample_text]. *)
Definition sample_fs : filesystem :=
  Filesystem {[ lit "data/demo.json" := sample_text ]} (fun _ => true).

(** A store with a file whose name holds a character that is not kept. *)
Definition plus_fs : filesystem :=
  Filesystem {[ lit "data/a+b.json" := sample_text ]} (fun _ => true).

(** A codec that knows two more files: a list and an empty object. *)
Definition tiny_codec : JsonCodec := {|
  json_dump := fun _ => lit "{}";
  json_load := fun text =>
    if pystr_eqb text (lit "[1]") then Some (PList [PInt 1])
    else if pystr_eqb text (lit "{}") then Some (PDict [])
    else None;
|}.

Definition tiny_fs : filesystem :=
  Filesystem (<[ lit "data/list.json" := lit "[1]" ]>
              {[ lit "data/empty.json" := lit "{}" ]})
    (fun _ => true).

Definition sample_uploads : list (pystr * pystr) :=
  [(lit "A.py", lit "0123456789"); (lit "B.py", lit "01234567890123456789")].

Definition unified_mode : pystr := lit "Process TOGETHER (unified)".

Definition three_failures : list (result (option pystr)) :=
  [Raise (Exception "APITimeoutError" (lit "Request timed out."));
   Raise (Exception "RateLimitError" (lit "Rate limit reached."));
   Raise (Exception "InternalServerError" (lit "Overloaded."))].

(** A block tagged [c#], then a line, then a lone fence. *)
Definition csharp_answer : pystr :=
  lit "```c#" ++ nl ++ lit "x" ++ nl ++ lit "```" ++ nl ++ lit "more" ++ nl
  ++ lit "```".

(** The block [```python\nprint(1)\n```] with the line ends of Windows. *)
Definition crlf_answer : pystr :=
  lit "```python" ++ [13; 10] ++ lit "print(1)" ++ [13; 10] ++ lit "```".

(** Two spans fenced on one line each, on two lines. *)
Definition inline_spans : pystr :=
  lit "Use ```pip install x```" ++ nl ++ lit "then ```run```".



(** An answer with prose, a block and more prose. *)
Definition sample_answer : pystr :=
  lit "Here is the code:" ++ nl ++ lit "```python" ++ nl
  ++ lit "  print(1)  " ++ nl ++ lit "```" ++ nl ++ lit "Done.".

(** * Properties *)

(** Every event of a concrete trace is one of two given events. *)
Ltac each_event :=
  repeat (constructor; [(left; reflexivity) || (right; reflexivity) |]);
  constructor.

(** ** Strings *)

Lemma pystr_eqb_eq (a b : pystr) : pystr_eqb a b = true <-> a = b.
Proof. unfold pystr_eqb. apply bool_decide_eq_true. Qed.

Lemma pystr_eqb_neq (a b : pystr) : pystr_eqb a b = false <-> a <> b.
Proof. unfold pystr_eqb. apply bool_decide_eq_false. Qed.

Lemma pystr_eqb_refl (a : pystr) : pystr_eqb a a = true.
Proof. now apply pystr_eqb_eq. Qed.

Lemma strip_prefix_spec (p s r : pystr) :
  strip_prefix p s = Some r <-> s = p ++ r.
Proof.
  revert s. induction p as [| c p IH]; intros s; cbn [strip_prefix List.app].
  - split; [now intros [= ->] | now intros ->].
  - destruct s as [| d s]; [split; discriminate |].
    destruct (N.eqb_spec c d) as [<- | Hne].
    + rewrite IH. split; [now intros -> | now intros [= ->]].
    + split; [discriminate | intros [= -> _]; now contradiction Hne].
Qed.

Lemma strip_prefix_app (p r : pystr) : strip_prefix p (p ++ r) = Some r.
Proof. now apply strip_prefix_spec. Qed.

Lemma startswith_iff (s p : pystr) :
  startswith s p = true <-> exists r, s = p ++ r.
Proof.
  unfold startswith. destruct (strip_prefix p s) as [r |] eqn:Hp.
  - apply strip_prefix_spec in Hp. split; [eauto | reflexivity].
  - split; [discriminate |]. intros [r Hr].
    apply strip_prefix_spec in Hr. congruence.
Qed.

(** [contains s p] is [p in s]: [p] is a substring of [s]. *)
Lemma contains_iff (s p : pystr) :
  contains s p = true <-> exists a b, s = a ++ p ++ b.
Proof.
  induction s as [| c s IH]; cbn [contains].
  - rewrite orb_false_r, startswith_iff. split.
    + intros [r Hr]. now exists [], r.
    + intros (a & b & Hab). destruct a; [now exists b |]. discriminate.
  - rewrite orb_true_iff, startswith_iff, IH. split.
    + intros [[r Hr] | (a & b & Hab)].
      * now exists [], r.
      * exists (c :: a), b. now rewrite Hab.
    + intros (a & b & Hab). destruct a as [| c' a].
      * left. now exists b.
      * right. injection Hab as _ Hab. now exists a, b.
Qed.

Lemma in_range_above (lo hi c : N) : hi < c -> in_range lo hi c = false.
Proof.
  intros Hc. unfold in_range.
  destruct (N.leb_spec c hi) as [Hle | _]; [lia | apply andb_false_r].
Qed.

Lemma eqb_above (k c : N) : k < c -> (c =? k) = false.
Proof. intros Hc. apply N.eqb_neq. lia. Qed.

(** Every code point below [n] is met by a check over [0 .. n-1]. *)
Lemma below_forallb (P : N -> bool) (n : nat) :
  forallb P (List.map N.of_nat (seq 0 n)) = true ->
  forall c, c < N.of_nat n -> P c = true.
Proof.
  intros Hall c Hc.
  rewrite forallb_forall in Hall. apply Hall.
  rewrite <- (N2Nat.id c). apply in_map. apply in_seq. lia.
Qed.

(** ** Session store *)

Section Store.
Context `{UnicodeData} `{JsonCodec}.

Lemma safe_char_ascii (c : N) : c < 128 -> session_safe_char c = class_char c.
Proof.
  intros Hc.
  apply (below_forallb
           (fun c => Bool.eqb (session_safe_char c) (class_char c)) 128) in Hc.
  - now apply Bool.eqb_prop.
  - vm_compute. reflexivity.
Qed.

Lemma class_char_above (c : N) : 128 <= c -> class_char c = false.
Proof.
  intros Hc. unfold class_char, ascii_alnum.
  rewrite !in_range_above by lia. rewrite !eqb_above by lia. reflexivity.
Qed.

Lemma safe_char_above (c : N) : 128 <= c -> session_safe_char c = isalnum c.
Proof.
  intros Hc. unfold session_safe_char.
  assert (Hp : forall k, k < 128 -> pystr_eqb [c] [k] = false).
  { intros k Hk. apply pystr_eqb_neq. intros [= ->]. lia. }
  cbn [existsb]. change (lit "-") with [45]. change (lit "_") with [95].
  change (lit " ") with [32]. change (lit ".") with [46].
  rewrite !Hp by lia. now rewrite !orb_false_r.
Qed.

Lemma safe_char_classes (c : N) :
  session_safe_char c = class_char c || ((128 <=? c) && isalnum c).
Proof.
  destruct (N.leb_spec 128 c) as [Hge | Hlt].
  - rewrite safe_char_above, class_char_above by assumption. reflexivity.
  - rewrite safe_char_ascii by assumption. now rewrite andb_false_l, orb_false_r.
Qed.

Lemma session_path_eq (name : pystr) :
  session_path name
  = lit "data/" ++ List.filter session_safe_char name ++ lit ".json".
Proof.
  unfold session_path, os_path_join.
  set (safe := List.filter session_safe_char name).
  assert (Hstart : startswith (safe ++ lit ".json") (lit "/") = false).
  { destruct safe as [| d safe'] eqn:Hsafe; [reflexivity |].
    assert (Hd : session_safe_char d = true).
    { assert (Hin : In d (List.filter session_safe_char name))
        by (fold safe; rewrite Hsafe; now left).
      now apply filter_In in Hin. }
    unfold startswith. change (lit "/") with [47]. cbn [List.app strip_prefix].
    destruct (N.eqb_spec 47 d) as [<- | _]; [| reflexivity].
    rewrite safe_char_ascii in Hd by lia. discriminate Hd. }
  rewrite Hstart. reflexivity.
Qed.



(** C2 (amended). The file of a session is [data/<safe>.json], where
    [<safe>] is the name without the characters that are neither
    alphanumeric for [str.isalnum] nor one of hyphen, underscore, space and
    dot. The characters kept are those of [[A-Za-z0-9\-_ .]] together with
    the alphanumeric characters outside ASCII, and two names have the same
    file exactly when they agree after the removal. *)
Theorem session_path_sanitized (name name' : pystr) :
  session_path name
  = lit "data/" ++ List.filter session_safe_char name ++ lit ".json"
  /\ (forall c, session_safe_char c
                = class_char c || ((128 <=? c) && isalnum c))
  /\ (session_path name = session_path name'
      <-> List.filter session_safe_char name
          = List.filter session_safe_char name').
Proof.
  split; [apply session_path_eq |]. split; [apply safe_char_classes |].
  rewrite !session_path_eq. split.
  - intros Heq. apply app_inv_head in Heq. now apply app_inv_tail in Heq.
  - now intros ->.
Qed.

(** C7. When no file exists at the path of the name, [load_session]
    returns [None]; it does not raise. *)
Theorem load_missing_session (fs : filesystem) (name : pystr) :
  files fs !! session_path name = None ->
  load_session fs name = Ok PNone.
Proof. intros Hnone. unfold load_session. now rewrite Hnone. Qed.

End Store.

(** ** Load handler *)

Section LoadHandler.
Context `{UnicodeData} `{JsonCodec}.

(** The handler assigns all five fields or none. *)
Lemma on_load_click_all_or_nothing (fs : filesystem) (sel : pystr)
    (a : streamlit) :
  session_state (fst (on_load_click fs sel a)) = session_state a
  \/ exists d,
       load_session fs sel = Ok (PDict d)
       /\ session_state (fst (on_load_click fs sel a))
          = restored d sel (session_state a).
Proof.
  unfold on_load_click.
  destruct (negb (pystr_eqb sel []) && negb (pystr_eqb sel (lit "(select)")));
    [| left; reflexivity].
  unfold se_bind at 1, se_lift at 1.
  destruct (load_session fs sel) as [loaded | e]; [| left; reflexivity].
  destruct loaded as [| b | z | x | s | l | d].
  - left; reflexivity.
  - destruct b; left; reflexivity.
  - cbn [truthy]. destruct (negb (z =? 0)%Z); left; reflexivity.
  - cbn [truthy]. destruct (negb (Qeq_bool x 0)); left; reflexivity.
  - cbn [truthy]. destruct (negb (pystr_eqb s [])); left; reflexivity.
  - destruct l; left; reflexivity.
  - destruct d as [| kv d']; [left; reflexivity |].
    right. eexists. split; reflexivity.
Qed.

Lemma on_load_click_not_found (fs : filesystem) (sel : pystr) (a : streamlit) :
  files fs !! session_path sel = None ->
  sel <> [] -> sel <> lit "(select)" ->
  on_load_click fs sel a
  = (Streamlit (session_state a)
       (page a ++ [StError (lit "The session could not be loaded.")]),
     Ok tt).
Proof.
  intros Hnone Hne Hsel. unfold on_load_click.
  apply pystr_eqb_neq in Hne, Hsel. rewrite Hne, Hsel. cbn [negb andb].
  unfold se_bind at 1, se_lift at 1, load_session. rewrite Hnone. reflexivity.
Qed.

Lemma on_load_click_bad_json (fs : filesystem) (sel text : pystr)
    (a : streamlit) :
  files fs !! session_path sel = Some text -> json_load text = None ->
  sel <> [] -> sel <> lit "(select)" ->
  on_load_click fs sel a
  = (a, Raise (Exception "JSONDecodeError" (lit "invalid JSON"))).
Proof.
  intros Hsome Hbad Hne Hsel. unfold on_load_click.
  apply pystr_eqb_neq in Hne, Hsel. rewrite Hne, Hsel. cbn [negb andb].
  unfold se_bind at 1, se_lift at 1, load_session. rewrite Hsome, Hbad.
  reflexivity.
Qed.

(** C8. When the load fails, because no file exists for the selected
    session or because the file is not valid JSON, the handler leaves
    [st.session_state] as it was. In the second case the parse error leaves
    the handler as an exception; in the first the page shows that the
    session could not be loaded. Whatever the file holds, the handler
    assigns all five fields or none of them. *)
Theorem load_failure_keeps_state (fs : filesystem) (sel : pystr)
    (a : streamlit) :
  (files fs !! session_path sel = None
   \/ exists text, files fs !! session_path sel = Some text
                   /\ json_load text = None) ->
  session_state (fst (on_load_click fs sel a)) = session_state a
  /\ (sel <> [] -> sel <> lit "(select)" ->
      forall text, files fs !! session_path sel = Some text ->
                   json_load text = None ->
      on_load_click fs sel a
      = (a, Raise (Exception "JSONDecodeError" (lit "invalid JSON"))))
  /\ (sel <> [] -> sel <> lit "(select)" ->
      files fs !! session_path sel = None ->
      on_load_click fs sel a
      = (Streamlit (session_state a)
           (page a ++ [StError (lit "The session could not be loaded.")]),
         Ok tt))
  /\ (forall fs' sel' a',
        session_state (fst (on_load_click fs' sel' a')) = session_state a'
        \/ exists d,
             load_session fs' sel' = Ok (PDict d)
             /\ session_state (fst (on_load_click fs' sel' a'))
                = restored d sel' (session_state a')).
Proof.
  intros Hfail. split; [| split; [| split]].
  - destruct (on_load_click_all_or_nothing fs sel a) as [Hsame | (d & Hload & _)];
      [exact Hsame |].
    unfold load_session in Hload.
    destruct Hfail as [Hnone | (text & Hsome & Hbad)].
    + rewrite Hnone in Hload. discriminate Hload.
    + rewrite Hsome, Hbad in Hload. discriminate Hload.
  - intros Hne Hsel text Hsome Hbad. now apply on_load_click_bad_json with text.
  - intros Hne Hsel Hnone. now apply on_load_click_not_found.
  - intros fs' sel' a'. apply on_load_click_all_or_nothing.
Qed.

End LoadHandler.

(** ** Completion client *)

Section Client.
Context {C : Type} `{ChatClient C}.

(** The run of [call_openai], by the outcomes of its calls. *)
Lemma call_openai_runs (cfg : sidebar) (msgs : list pyval) (w : api C) :
  let req := Request (model cfg) msgs (temperature cfg) (max_tokens cfg) in
  call_openai cfg msgs w
  = match chat_create req (client w) with
    | (c1, Ok r) => (Api c1 (trace w ++ [ApiCall req]), Ok r)
    | (c1, Raise e1) =>
        match chat_create req c1 with
        | (c2, Ok r) =>
            (Api c2 (trace w ++ [ApiCall req; Sleep 1.2%Q; ApiCall req]), Ok r)
        | (c2, Raise e2) =>
            match chat_create req c2 with
            | (c3, Ok r) =>
                (Api c3 (trace w ++ [ApiCall req; Sleep 1.2%Q; ApiCall req;
                                     Sleep 1.2%Q; ApiCall req]), Ok r)
            | (c3, Raise e3) =>
                (Api c3 (trace w ++ [ApiCall req; Sleep 1.2%Q; ApiCall req;
                                     Sleep 1.2%Q; ApiCall req; Sleep 1.2%Q]),
                 Raise (Exception "RuntimeError"
                          (lit "Contact OpenAI: " ++ str_exn e3)))
            end
        end
    end.
Proof.
  intros req. unfold call_openai. fold req.
  cbn [seq call_openai_from]. unfold se_try, se_bind, api_create, time_sleep, se_raise.
  cbn [client trace].
  destruct (chat_create req (client w)) as [c1 [r1 | e1]]; [reflexivity |].
  cbn [client trace].
  destruct (chat_create req c1) as [c2 [r2 | e2]].
  { now rewrite <- !app_assoc. }
  cbn [client trace].
  destruct (chat_create req c2) as [c3 [r3 | e3]];
    cbn [client trace str_last_err]; now rewrite <- !app_assoc.
Qed.

(** C3. [call_openai] makes at most three calls, all with the same
    request, and sleeps 1.2 seconds after each call that failed. If the
    first two calls fail and the third succeeds, it returns the result of
    the third after three calls and two sleeps. If the three calls fail, it
    raises a [RuntimeError] whose message ends with the text of the third
    failure. *)
Theorem call_openai_retry_ceiling (cfg : sidebar) (msgs : list pyval)
    (w : api C) :
  let req := Request (model cfg) msgs (temperature cfg) (max_tokens cfg) in
  (exists evs,
     trace (fst (call_openai cfg msgs w)) = trace w ++ evs
     /\ (api_calls evs <= 3)%nat
     /\ Forall (fun ev => ev = ApiCall req \/ ev = Sleep 1.2%Q) evs)
  /\ (forall c1 c2 c3 e1 e2 r,
        chat_create req (client w) = (c1, Raise e1) ->
        chat_create req c1 = (c2, Raise e2) ->
        chat_create req c2 = (c3, Ok r) ->
        call_openai cfg msgs w
        = (Api c3 (trace w ++ [ApiCall req; Sleep 1.2%Q; ApiCall req;
                               Sleep 1.2%Q; ApiCall req]),
           Ok r))
  /\ (forall c1 c2 c3 e1 e2 e3,
        chat_create req (client w) = (c1, Raise e1) ->
        chat_create req c1 = (c2, Raise e2) ->
        chat_create req c2 = (c3, Raise e3) ->
        call_openai cfg msgs w
        = (Api c3 (trace w ++ [ApiCall req; Sleep 1.2%Q; ApiCall req;
                               Sleep 1.2%Q; ApiCall req; Sleep 1.2%Q]),
           Raise (Exception "RuntimeError"
                    (lit "Contact OpenAI: " ++ str_exn e3)))).
Proof.
  intros req. pose proof (call_openai_runs cfg msgs w) as Hrun. fold req in Hrun.
  cbv zeta in Hrun. split; [| split].
  - rewrite Hrun.
    destruct (chat_create req (client w)) as [c1 [r1 | e1]].
    { eexists. split; [reflexivity |]. split; [cbn; lia | each_event]. }
    destruct (chat_create req c1) as [c2 [r2 | e2]].
    { eexists. split; [reflexivity |]. split; [cbn; lia | each_event]. }
    destruct (chat_create req c2) as [c3 [r3 | e3]];
      (eexists; split; [reflexivity |]; split; [cbn; lia | each_event]).
  - intros c1 c2 c3 e1 e2 r H1 H2 H3. now rewrite Hrun, H1, H2, H3.
  - intros c1 c2 c3 e1 e2 e3 H1 H2 H3. now rewrite Hrun, H1, H2, H3.
Qed.

End Client.

(** ** Prompt builder *)

Lemma with_inputs_context (ctx ver : pystr) (state : gmap pystr pyval) :
  with_inputs ctx ver state !! lit "persistent_context" = Some (PStr ctx).
Proof. unfold with_inputs. apply lookup_insert_eq. Qed.

Lemma with_inputs_version (ctx ver : pystr) (state : gmap pystr pyval) :
  with_inputs ctx ver state !! lit "nx_version" = Some (PStr ver).
Proof.
  unfold with_inputs. rewrite lookup_insert_ne.
  - apply lookup_insert_eq.
  - intros Heq. vm_compute in Heq. discriminate Heq.
Qed.

Lemma build_system_prompt_eq (ctx ver : pystr) (state : gmap pystr pyval) :
  build_system_prompt (with_inputs ctx ver state)
  = Ok (role_and_reference ++ compatibility_line (strip ver)
        ++ journal_directive
        ++ (if pystr_eqb (strip ctx) [] then []
            else instructions_section (strip ctx))
        ++ response_format).
Proof.
  unfold build_system_prompt.
  rewrite with_inputs_context, with_inputs_version.
  cbn [from_option id py_strip rbind].
  f_equal. unfold role_and_reference, compatibility_line, journal_directive,
    instructions_section, instructions_header, response_format.
  destruct (pystr_eqb (strip ctx) []); cbn [negb];
    now rewrite <- ?app_assoc.
Qed.

(** C5 (amended). The prompt is, in this order: the role statement with
    the documentation pointer and the reviewer directive, the compatibility
    line naming [nx_version] trimmed of surrounding whitespace, the
    directive on journal recordings, the PERMANENT INSTRUCTIONS section
    holding [persistent_context] trimmed of surrounding whitespace (no
    section at all when the trimmed context is empty), and the four-point
    response format. For the inputs ["", "NX 2212"] the prompt has no
    PERMANENT INSTRUCTIONS; for ["keep names in English", "NX 2212"] it
    has the section with that text and the compatibility line with
    [NX 2212]. *)
Theorem build_system_prompt_composition (ctx ver : pystr)
    (state : gmap pystr pyval) :
  build_system_prompt (with_inputs ctx ver state)
  = Ok (role_and_reference ++ compatibility_line (strip ver)
        ++ journal_directive
        ++ (if pystr_eqb (strip ctx) [] then []
            else instructions_section (strip ctx))
        ++ response_format)
  /\ (exists p,
        build_system_prompt (with_inputs (lit "") (lit "NX 2212") state) = Ok p
        /\ contains p (lit "PERMANENT INSTRUCTIONS") = false)
  /\ (exists p,
        build_system_prompt
          (with_inputs (lit "keep names in English") (lit "NX 2212") state)
        = Ok p
        /\ contains p (instructions_section (lit "keep names in English")) = true
        /\ contains p (compatibility_line (lit "NX 2212")) = true).
Proof.
  split; [apply build_system_prompt_eq |]. split.
  - eexists. split; [apply build_system_prompt_eq |]. vm_compute. reflexivity.
  - eexists. split; [apply build_system_prompt_eq |].
    split; vm_compute; reflexivity.
Qed.

(** ** The message list of a turn *)

Lemma replay_history_filter (history : list pyval) :
  Forall (fun m => exists role, py_getitem m (lit "role") = Ok role) history ->
  replay_history history = Ok (List.filter replayable history).
Proof.
  induction 1 as [| m history [role Hrole] _ IH]; [reflexivity |].
  cbn [replay_history List.filter]. rewrite Hrole, IH. cbn [rbind].
  unfold replayable, has_role. now rewrite Hrole.
Qed.

Lemma assemble_messages_ok (code_msg prompt : pystr) (history : list pyval)
    (a : streamlit) :
  build_system_prompt (session_state a) = Ok prompt ->
  session_state a !! lit "messages" = Some (PList history) ->
  Forall (fun m => exists role, py_getitem m (lit "role") = Ok role) history ->
  assemble_messages code_msg a
  = (a, Ok ([message (lit "system") prompt]
            ++ List.filter replayable history
            ++ [message (lit "user") code_msg]
            ++ [message (lit "user") final_instruction])).
Proof.
  intros Hprompt Hmsgs Hroles.
  unfold assemble_messages, se_bind, state_getitem, se_lift, se_ret.
  rewrite Hprompt, Hmsgs. cbn [py_iter].
  now rewrite (replay_history_filter history Hroles).
Qed.

Lemma replayable_iff (m : pyval) :
  replayable m = true
  <-> exists d,
        m = PDict d
        /\ (dict_lookup d (lit "role") = Some (PStr (lit "user"))
            \/ dict_lookup d (lit "role") = Some (PStr (lit "assistant"))).
Proof.
  unfold replayable, has_role. split.
  - destruct m as [| b | z | q | s | l | d]; cbn [py_getitem orb];
      try discriminate.
    destruct (dict_lookup d (lit "role")) as [v |] eqn:Hlook;
      [| discriminate].
    destruct v as [| b | z | q | s | l | d']; cbn [eq_str orb];
      try discriminate.
    intros Hrole. exists d. split; [reflexivity |].
    apply orb_true_iff in Hrole as [Hs | Hs]; apply pystr_eqb_eq in Hs;
      subst s; auto.
  - intros (d & -> & [Hrole | Hrole]); cbn [py_getitem]; rewrite Hrole;
      reflexivity.
Qed.

Section Turn.
Context `{UnicodeData} {C : Type} `{ChatClient C}.

(** The client side of a turn is the run of [call_openai] on the
    assembled list. *)
Lemma clean_and_improve_calls (cfg : sidebar) (files : list (pystr * pystr))
    (join_mode : pystr) (selected : option pystr) (a : streamlit) (x : api C)
    (code_msg : pystr) (msgs : list pyval) :
  api_key cfg <> [] ->
  code_message files join_mode selected = Ok code_msg ->
  assemble_messages code_msg a = (a, Ok msgs) ->
  snd (fst (clean_and_improve cfg files join_mode selected (a, x)))
  = fst (call_openai cfg msgs x).
Proof.
  intros Hkey Hcode Hmsgs. apply pystr_eqb_neq in Hkey.
  unfold clean_and_improve, ensure_client. rewrite Hkey, Hcode.
  unfold se_bind at 1, in_app at 1, se_ret at 1. cbn [fst snd].
  unfold se_bind at 1, se_lift at 1.
  unfold se_bind at 1, in_app at 1. cbn [fst snd]. rewrite Hmsgs.
  unfold se_try, se_bind at 1, in_api at 1. cbn [fst snd].
  destruct (call_openai cfg msgs x) as [x' [r | e]]; cbn [fst snd].
  - unfold se_bind, in_app, st_write, se_lift. cbn [fst snd].
    destruct r as [r |]; cbn [re_subject fst snd]; [| reflexivity].
    destruct (offer_download selected r _) as [a' [[] | e']]; reflexivity.
  - reflexivity.
Qed.

(** [sep.join] puts the separator before every part but the first. *)
Lemma str_join_concat (sep p : pystr) (ps : list pystr) :
  str_join sep (p :: ps) = p ++ concat (List.map (fun q => sep ++ q) ps).
Proof.
  revert p. induction ps as [| q ps IH]; intros p.
  - cbn. now rewrite app_nil_r.
  - change (str_join sep (p :: q :: ps))
      with (p ++ sep ++ str_join sep (q :: ps)).
    rewrite IH. cbn [List.map concat]. now rewrite <- !app_assoc.
Qed.

Lemma files_lookup_In (files : list (pystr * pystr)) (name text : pystr) :
  files_lookup files name = Some text -> In (name, text) files.
Proof.
  induction files as [| [k v] files IH]; cbn [files_lookup]; [discriminate |].
  destruct (pystr_eqb k name) eqn:Hk.
  - apply pystr_eqb_eq in Hk. intros [= ->]. subst k. now left.
  - intros Hrest. right. now apply IH.
Qed.

(** The payload, spelled out for both modes. *)
Lemma code_message_payload (files : list (pystr * pystr)) (join_mode : pystr)
    (selected : option pystr) (code_msg : pystr) :
  code_message files join_mode selected = Ok code_msg ->
  (exists name text,
     selected = Some name /\ In (name, text) files
     /\ code_msg = lit "Received code (file: " ++ name ++ lit "):" ++ nl
                   ++ lit "```auto" ++ nl ++ text ++ nl ++ lit "```")
  \/ code_msg
     = lit "Received code (multiple files unified):" ++ nl
       ++ lit "```auto" ++ nl
       ++ match files with
          | [] => []
          | f :: fs =>
              (lit "// ==== ARCHIVO: " ++ fst f ++ lit " ====" ++ nl ++ snd f)
              ++ concat
                   (List.map
                      (fun g => nl ++ nl ++ lit "// ==== ARCHIVO: " ++ fst g
                                ++ lit " ====" ++ nl ++ snd g) fs)
          end
       ++ nl ++ lit "```".
Proof.
  unfold code_message.
  destruct (pystr_eqb join_mode (lit "Process SELECTED file")
            && truthy_opt selected) eqn:Hmode.
  - apply andb_true_iff in Hmode as [_ Hsel].
    destruct selected as [name |]; [| discriminate Hsel].
    cbn [default from_option id].
    destruct (files_lookup files name) as [text |] eqn:Hfile; [| discriminate].
    intros [= <-]. left. exists name, text.
    split; [reflexivity |]. split; [now apply files_lookup_In | reflexivity].
  - intros [= <-]. right.
    destruct files as [| f fs]; [reflexivity |].
    cbn [List.map]. rewrite str_join_concat, List.map_map.
    rewrite (List.map_ext _
               (fun g => nl ++ nl ++ lit "// ==== ARCHIVO: " ++ fst g
                         ++ lit " ====" ++ nl ++ snd g));
      [reflexivity |].
    intros g. reflexivity.
Qed.

(** C6. On a turn whose history is a list of messages that each carry a
    role, the first call of the client is made with this list, in this
    order: one message of role [system] whose content is the freshly built
    prompt; the history messages whose role is [user] or [assistant], as
    they are and in their order, and no other history message; one message
    of role [user] whose content is the code payload; one message of role
    [user] whose content is the fixed instruction to return the final code
    in a single block. The payload is the text of the selected file, or the
    texts of all files under their headers, inside one fence. Every later
    call of the turn repeats this request. *)
Theorem turn_message_list (cfg : sidebar) (files : list (pystr * pystr))
    (join_mode : pystr) (selected : option pystr) (a : streamlit) (x : api C)
    (code_msg prompt : pystr) (history : list pyval) :
  api_key cfg <> [] ->
  code_message files join_mode selected = Ok code_msg ->
  build_system_prompt (session_state a) = Ok prompt ->
  session_state a !! lit "messages" = Some (PList history) ->
  Forall (fun m => exists role, py_getitem m (lit "role") = Ok role) history ->
  let msgs :=
    [PDict [(lit "role", PStr (lit "system")); (lit "content", PStr prompt)]]
    ++ List.filter replayable history
    ++ [PDict [(lit "role", PStr (lit "user")); (lit "content", PStr code_msg)]]
    ++ [PDict [(lit "role", PStr (lit "user"));
               (lit "content",
                PStr (lit "Process the file(s) respecting the persistent context and the indicated NX version. Return the final code in a single block."))]] in
  let req := Request (model cfg) msgs (temperature cfg) (max_tokens cfg) in
  (exists later,
     trace (snd (fst (clean_and_improve cfg files join_mode selected (a, x))))
     = trace x ++ ApiCall req :: later
     /\ Forall (fun ev => ev = ApiCall req \/ ev = Sleep 1.2%Q) later)
  /\ Forall (fun m => has_role (lit "system") m = false)
       (List.filter replayable history)
  /\ (forall m,
        In m (List.filter replayable history)
        <-> In m history
            /\ exists d,
                 m = PDict d
                 /\ (dict_lookup d (lit "role") = Some (PStr (lit "user"))
                     \/ dict_lookup d (lit "role")
                        = Some (PStr (lit "assistant"))))
  /\ ((exists name text,
         selected = Some name /\ In (name, text) files
         /\ code_msg = lit "Received code (file: " ++ name ++ lit "):" ++ nl
                       ++ lit "```auto" ++ nl ++ text ++ nl ++ lit "```")
      \/ code_msg
         = lit "Received code (multiple files unified):" ++ nl
           ++ lit "```auto" ++ nl
           ++ match files with
              | [] => []
              | f :: fs =>
                  (lit "// ==== ARCHIVO: " ++ fst f ++ lit " ====" ++ nl
                   ++ snd f)
                  ++ concat
                       (List.map
                          (fun g => nl ++ nl ++ lit "// ==== ARCHIVO: "
                                    ++ fst g ++ lit " ====" ++ nl ++ snd g) fs)
              end
           ++ nl ++ lit "```").
Proof.
  intros Hkey Hcode Hprompt Hmsgs Hroles msgs req.
  split; [| split; [| split]].
  - rewrite (clean_and_improve_calls cfg files join_mode selected a x
               code_msg msgs Hkey Hcode
               (assemble_messages_ok code_msg prompt history a
                  Hprompt Hmsgs Hroles)).
    pose proof (call_openai_runs cfg msgs x) as Hrun. fold req in Hrun.
    cbv zeta in Hrun. rewrite Hrun.
    destruct (chat_create req (client x)) as [c1 [r1 | e1]].
    { exists []. split; [reflexivity | constructor]. }
    destruct (chat_create req c1) as [c2 [r2 | e2]].
    { eexists. split; [reflexivity | each_event]. }
    destruct (chat_create req c2) as [c3 [r3 | e3]];
      (eexists; split; [reflexivity | each_event]).
  - apply Forall_forall. intros m Hm. apply list_elem_of_In in Hm.
    apply filter_In in Hm as [_ Hm].
    unfold replayable, has_role in *.
    destruct (py_getitem m (lit "role")) as [v |]; [| reflexivity].
    destruct v as [| | | | s | |]; try reflexivity.
    cbn [eq_str] in *. apply orb_true_iff in Hm.
    destruct Hm as [Hm | Hm]; apply pystr_eqb_eq in Hm; subst s;
      vm_compute; reflexivity.
  - intros m. rewrite filter_In. apply and_iff_compat_l. apply replayable_iff.
  - exact (code_message_payload files join_mode selected code_msg Hcode).
Qed.

(** The name of the download does not depend on the processed file. *)
Lemma offer_download_name (selected : option pystr)
    (result code data : pystr) (a : streamlit) :
  extract_code_block result = Some code -> code <> [] ->
  utf8_encode code = Ok data ->
  offer_download selected result a
  = (Streamlit (session_state a)
       (page a ++ [StDownloadButton
                     ([0x2B07; 0xFE0F] ++ lit " Download proposed code")
                     data (lit "improved_code.py") (lit "text/plain")]),
     Ok tt).
Proof.
  intros Hcode Hne Hdata. unfold offer_download. rewrite Hcode.
  apply pystr_eqb_neq in Hne. cbn [truthy_opt default from_option id].
  rewrite Hne. cbn [negb]. unfold se_bind, se_lift. rewrite Hdata.
  destruct (truthy_opt selected && _); reflexivity.
Qed.

(** C9 (the code at the failing input). A C# journal [Journal.cs] is
    processed, the answer holds a fenced block of C# code, and the code is
    offered under the name [improved_code.py]. *)
Theorem download_name_of_cs_file (a : streamlit) :
  offer_download (Some (lit "Journal.cs"))
    (lit "```csharp" ++ nl ++ lit "using NXOpen;" ++ nl ++ lit "```") a
  = (Streamlit (session_state a)
       (page a ++ [StDownloadButton
                     ([0x2B07; 0xFE0F] ++ lit " Download proposed code")
                     (lit "using NXOpen;") (lit "improved_code.py")
                     (lit "text/plain")]),
     Ok tt).
Proof.
  apply offer_download_name with (lit "using NXOpen;").
  - vm_compute. reflexivity.
  - intros Heq. vm_compute in Heq. discriminate Heq.
  - vm_compute. reflexivity.
Qed.

End Turn.

(** ** Code extractor *)

(** The groups of the first way of matching, when there is one. *)
Local Notation "'first_groups' l" := (option_map groups (hd_error l))
  (at level 10, l at level 9, only parsing).

Lemma first_groups_map (f : rmatch -> rmatch) (l : list rmatch) :
  (forall m, groups (f m) = groups m) ->
  first_groups (List.map f l) = first_groups l.
Proof. intros Hf. destruct l as [| m l]; cbn; [reflexivity | now rewrite Hf]. Qed.

Lemma flat_map_of_map {A B D} (g : A -> B) (f : B -> list D) (l : list A) :
  flat_map f (List.map g l) = flat_map (fun x => f (g x)) l.
Proof. induction l as [| x l IH]; cbn; [reflexivity | now rewrite IH]. Qed.

Lemma flat_map_all_nil {A B} (f : A -> list B) (l : list A) :
  Forall (fun x => f x = []) l -> flat_map f l = [].
Proof. induction 1 as [| x l Hx _ IH]; cbn; [reflexivity | now rewrite Hx, IH]. Qed.

Lemma matches_at_seq (r1 r2 : regex) (s : pystr) :
  matches_at (RSeq r1 r2) s
  = flat_map (fun m1 =>
      List.map (fun m2 =>
        RMatch (consumed m1 ++ consumed m2) (groups m1 ++ groups m2) (rest m2))
        (matches_at r2 (rest m1)))
      (matches_at r1 s).
Proof. reflexivity. Qed.

(** A literal matches in one way, when the string starts with it. *)
Lemma matches_at_rlit (p s : pystr) :
  matches_at (rlit p) s
  = match strip_prefix p s with
    | Some r => [RMatch p [] r]
    | None => []
    end.
Proof.
  revert s. induction p as [| c p IH]; intros s; [reflexivity |].
  cbn [rlit]. rewrite matches_at_seq. cbn [matches_at strip_prefix].
  destruct s as [| d s]; [reflexivity |].
  cbn [atom_accepts]. rewrite (N.eqb_sym d c).
  destruct (N.eqb_spec c d) as [<- | _]; [| reflexivity].
  cbn [flat_map consumed groups rest]. rewrite IH, app_nil_r.
  destruct (strip_prefix p s); reflexivity.
Qed.

Lemma first_groups_after_literal (p : pystr) (r : regex) (s : pystr) :
  first_groups (matches_at (RSeq (rlit p) r) s)
  = match strip_prefix p s with
    | Some s1 => first_groups (matches_at r s1)
    | None => None
    end.
Proof.
  rewrite matches_at_seq, matches_at_rlit.
  destruct (strip_prefix p s) as [s1 |]; [| reflexivity].
  cbn [flat_map consumed groups rest]. rewrite app_nil_r.
  now apply first_groups_map.
Qed.

Lemma first_groups_after_char (c : N) (r : regex) (s : pystr) :
  first_groups (matches_at (RSeq (RAtom (AChar c)) r) s)
  = match strip_prefix [c] s with
    | Some s1 => first_groups (matches_at r s1)
    | None => None
    end.
Proof.
  rewrite matches_at_seq. cbn [matches_at strip_prefix].
  destruct s as [| d s]; [reflexivity |].
  cbn [atom_accepts]. rewrite (N.eqb_sym d c).
  destruct (c =? d); [| reflexivity].
  cbn [flat_map consumed groups rest]. rewrite app_nil_r.
  now apply first_groups_map.
Qed.

Lemma tag_char_not_newline (c : N) : tag_char c = true -> c <> 10.
Proof. intros Hc ->. vm_compute in Hc. discriminate Hc. Qed.

(** After a tag character the newline of the pattern cannot match. *)
Lemma no_newline_at_tag_char (r : regex) (c : N) (t : pystr) :
  tag_char c = true ->
  matches_at (RSeq (RAtom (AChar 10)) r) (c :: t) = [].
Proof.
  intros Hc. rewrite matches_at_seq. cbn [matches_at atom_accepts].
  apply tag_char_not_newline in Hc. apply N.eqb_neq in Hc. now rewrite Hc.
Qed.

(** The runs of tag characters: the longest one leaves [skip_tag s], every
    shorter one stops before a tag character. *)
Lemma star_runs_tag (s : pystr) :
  exists shorter tag,
    star_runs (AClass tag_char) s = shorter ++ [(tag, skip_tag s)]
    /\ Forall (fun pr => exists c t, snd pr = c :: t /\ tag_char c = true) shorter.
Proof.
  induction s as [| c s (shorter & tag & Hruns & Hshort)].
  - exists [], []. split; [reflexivity | constructor].
  - cbn [star_runs skip_tag atom_accepts].
    destruct (tag_char c) eqn:Hc.
    + exists (([], c :: s) :: List.map (fun pr => (c :: fst pr, snd pr)) shorter),
        (c :: tag).
      split.
      * rewrite Hruns, List.map_app. reflexivity.
      * constructor; [now exists c, s |].
        clear Hruns. induction Hshort as [| pr l Hpr _ IH]; constructor; assumption.
    + exists [], []. split; [reflexivity | constructor].
Qed.

Lemma first_groups_after_tag (r : regex) (s : pystr) :
  first_groups
    (matches_at (RSeq (RStar true (AClass tag_char))
                   (RSeq (RAtom (AChar 10)) r)) s)
  = first_groups (matches_at (RSeq (RAtom (AChar 10)) r) (skip_tag s)).
Proof.
  remember (RSeq (RAtom (AChar 10)) r) as r' eqn:Hr'.
  rewrite matches_at_seq.
  cbn [matches_at]. rewrite flat_map_of_map. cbn [consumed groups rest fst snd].
  destruct (star_runs_tag s) as (shorter & tag & -> & Hshort).
  rewrite rev_unit. cbn [flat_map fst snd].
  rewrite flat_map_all_nil, app_nil_r.
  - now apply first_groups_map.
  - apply Forall_rev. subst r'.
    induction Hshort as [| pr l (c & t & Hpr & Hc) _ IH]; constructor; [| exact IH].
    rewrite Hpr, no_newline_at_tag_char by exact Hc. reflexivity.
Qed.

Lemma until_fence_nil : until_fence [] = None.
Proof. reflexivity. Qed.

Lemma until_fence_cons (c : N) (s : pystr) :
  until_fence (c :: s)
  = if startswith (c :: s) fence then Some []
    else option_map (cons c) (until_fence s).
Proof. reflexivity. Qed.

Lemma until_fence_unfold (s : pystr) :
  until_fence s
  = if startswith s fence then Some []
    else match s with
         | [] => None
         | c :: s' => option_map (cons c) (until_fence s')
         end.
Proof. destruct s; reflexivity. Qed.

(** The lazy body followed by the closing fence: the ways of matching, one
    per run that stops before a fence, shortest first. *)
Local Notation "'close_fence'" :=
  (fun pr : pystr * pystr =>
     match strip_prefix fence (snd pr) with
     | Some r => [RMatch (fst pr ++ fence) [fst pr] r]
     | None => []
     end) (only parsing).

Lemma lazy_body_matches (s : pystr) :
  matches_at (RSeq (RGroup (RStar false AAny)) (rlit fence)) s
  = flat_map close_fence (star_runs AAny s).
Proof.
  rewrite matches_at_seq. cbn [matches_at]. rewrite List.map_map, flat_map_of_map.
  apply flat_map_ext. intros pr. cbn [consumed groups rest].
  rewrite matches_at_rlit. destruct (strip_prefix fence (snd pr)); reflexivity.
Qed.

Lemma lazy_body_first (s pre : pystr) :
  first_groups
    (flat_map close_fence
       (List.map (fun pr => (pre ++ fst pr, snd pr)) (star_runs AAny s)))
  = option_map (fun b => [pre ++ b]) (until_fence s).
Proof.
  revert pre. induction s as [| c s IH]; intros pre.
  - reflexivity.
  - cbn [star_runs atom_accepts List.map flat_map fst snd].
    rewrite until_fence_cons. unfold startswith.
    destruct (strip_prefix fence (c :: s)) as [r |]; [reflexivity |].
    cbn [List.app]. rewrite List.map_map. cbn [fst snd].
    rewrite (List.map_ext _ (fun pr => ((pre ++ [c]) ++ fst pr, snd pr))).
    + rewrite IH. destruct (until_fence s) as [b |]; cbn [option_map];
        [now rewrite <- app_assoc | reflexivity].
    + intros pr. now rewrite <- app_assoc.
Qed.

Lemma first_groups_lazy_body (s : pystr) :
  first_groups (matches_at (RSeq (RGroup (RStar false AAny)) (rlit fence)) s)
  = option_map (fun b => [b]) (until_fence s).
Proof.
  rewrite lazy_body_matches.
  replace (star_runs AAny s)
    with (List.map (fun pr => ([] ++ fst pr, snd pr)) (star_runs AAny s)).
  - exact (lazy_body_first s []).
  - rewrite (List.map_ext _ (fun pr => pr)); [apply List.map_id |].
    now intros [p r].
Qed.

(** The pattern matches at the start of [s] exactly when a block opens
    there, and group 1 is then the body of the block. *)
Lemma code_block_first (s : pystr) :
  first_groups (matches_at code_block_re s)
  = option_map (fun b => [b]) (block_at s).
Proof.
  unfold code_block_re, block_at. rewrite first_groups_after_literal.
  destruct (strip_prefix fence s) as [s1 |]; [| reflexivity].
  rewrite first_groups_after_tag, first_groups_after_char. fold nl.
  destruct (strip_prefix nl (skip_tag s1)) as [s2 |]; [| reflexivity].
  apply first_groups_lazy_body.
Qed.

Lemma re_search_code_block (s : pystr) :
  option_map group1 (re_search code_block_re s) = first_block s.
Proof.
  induction s as [| c s IH]; cbn [re_search first_block].
  - pose proof (code_block_first []) as Hfirst.
    destruct (matches_at code_block_re []) as [| m l];
      destruct (block_at []) as [b |]; try discriminate Hfirst; [reflexivity |].
    injection Hfirst as Hg. cbn [option_map]. unfold group1. now rewrite Hg.
  - pose proof (code_block_first (c :: s)) as Hfirst.
    destruct (matches_at code_block_re (c :: s)) as [| m l];
      destruct (block_at (c :: s)) as [b |]; try discriminate Hfirst;
      [exact IH |].
    injection Hfirst as Hg. cbn [option_map]. unfold group1. now rewrite Hg.
Qed.

Lemma extract_code_block_eq (text : pystr) :
  extract_code_block text = option_map strip (first_block text).
Proof.
  unfold extract_code_block. rewrite <- re_search_code_block.
  destruct (re_search code_block_re text); reflexivity.
Qed.

Lemma skip_tag_split (s : pystr) :
  exists tag, s = tag ++ skip_tag s /\ forallb tag_char tag = true.
Proof.
  induction s as [| c s (tag & Hs & Htag)]; [now exists [] |].
  cbn [skip_tag]. destruct (tag_char c) eqn:Hc; [| now exists []].
  exists (c :: tag). cbn [forallb List.app]. rewrite Hc, Htag. now rewrite <- Hs.
Qed.

Lemma skip_tag_newline (tag r : pystr) :
  forallb tag_char tag = true -> skip_tag (tag ++ nl ++ r) = nl ++ r.
Proof.
  induction tag as [| c tag IH]; cbn [forallb List.app skip_tag]; [reflexivity |].
  intros Htag. apply andb_true_iff in Htag as [Hc Htag]. rewrite Hc. now apply IH.
Qed.

Lemma until_fence_sound (s body : pystr) :
  until_fence s = Some body ->
  exists post,
    s = body ++ fence ++ post
    /\ forall b1 b2, body = b1 ++ b2 -> b2 <> [] ->
         startswith (b2 ++ fence ++ post) fence = false.
Proof.
  revert body. induction s as [| c s IH]; intros body;
    [rewrite until_fence_nil; discriminate |].
  rewrite until_fence_cons.
  destruct (startswith (c :: s) fence) eqn:Hstart.
  - intros [= <-]. apply startswith_iff in Hstart as [post Hpost].
    exists post. split; [exact Hpost |].
    intros b1 b2 Hb Hne. symmetry in Hb. apply app_eq_nil in Hb as [_ Hb].
    contradiction.
  - destruct (until_fence s) as [body' |] eqn:Hrest; [| discriminate].
    intros [= <-]. destruct (IH body' eq_refl) as (post & Hs & Hfirst).
    exists post. split; [now rewrite Hs |].
    intros b1 b2 Hb Hne. destruct b1 as [| d b1].
    + cbn [List.app] in Hb. subst b2. cbn [List.app]. now rewrite <- Hs.
    + injection Hb as _ Hb. now apply (Hfirst b1 b2).
Qed.

Lemma until_fence_complete (body post : pystr) :
  (forall b1 b2, body = b1 ++ b2 -> b2 <> [] ->
     startswith (b2 ++ fence ++ post) fence = false) ->
  until_fence (body ++ fence ++ post) = Some body.
Proof.
  induction body as [| c body IH]; intros Hfirst.
  - cbn [List.app]. rewrite until_fence_unfold. unfold startswith.
    now rewrite strip_prefix_app.
  - cbn [List.app]. rewrite until_fence_cons.
    assert (Hstart : startswith ((c :: body) ++ fence ++ post) fence = false)
      by (now apply (Hfirst [] (c :: body))).
    cbn [List.app] in Hstart. rewrite Hstart.
    rewrite IH; [reflexivity |].
    intros b1 b2 Hb Hne. apply (Hfirst (c :: b1) b2); [now rewrite Hb | exact Hne].
Qed.

Lemma block_at_sound (s body : pystr) :
  block_at s = Some body -> exists tag post, fenced_block s tag body post.
Proof.
  unfold block_at.
  destruct (strip_prefix fence s) as [s1 |] eqn:Hfence; [| discriminate].
  destruct (strip_prefix nl (skip_tag s1)) as [s2 |] eqn:Hnl; [| discriminate].
  intros Hbody. apply strip_prefix_spec in Hfence, Hnl.
  destruct (skip_tag_split s1) as (tag & Hs1 & Htag).
  destruct (until_fence_sound s2 body Hbody) as (post & Hs2 & Hfirst).
  exists tag, post. split; [| split; assumption].
  now rewrite Hfence, Hs1, Hnl, Hs2.
Qed.

Lemma block_at_complete (s tag body post : pystr) :
  fenced_block s tag body post -> block_at s = Some body.
Proof.
  intros (-> & Htag & Hfirst). unfold block_at.
  rewrite strip_prefix_app, skip_tag_newline by exact Htag.
  rewrite strip_prefix_app. now apply until_fence_complete.
Qed.

Lemma first_block_none (text : pystr) :
  (forall pre s, text = pre ++ s -> block_at s = None) ->
  first_block text = None.
Proof.
  induction text as [| c text IH]; intros Hnone; cbn [first_block].
  - now rewrite (Hnone [] [] eq_refl).
  - rewrite (Hnone [] (c :: text) eq_refl). apply IH.
    intros pre s ->. now apply (Hnone (c :: pre) s).
Qed.

Lemma first_block_leftmost (pre s body : pystr) :
  block_at s = Some body ->
  (forall pre' s', pre ++ s = pre' ++ s' -> (length pre' < length pre)%nat ->
     block_at s' = None) ->
  first_block (pre ++ s) = Some body.
Proof.
  intros Hblock. induction pre as [| c pre IH]; intros Hearlier.
  - cbn [List.app]. destruct s; cbn [first_block]; now rewrite Hblock.
  - cbn [List.app first_block].
    rewrite (Hearlier [] (c :: pre ++ s) eq_refl) by (cbn; lia).
    apply IH. intros pre' s' Heq Hlen.
    apply (Hearlier (c :: pre') s'); [cbn; now rewrite Heq | cbn; lia].
Qed.

Lemma first_block_sound (text body : pystr) :
  first_block text = Some body ->
  exists pre s tag post, text = pre ++ s /\ fenced_block s tag body post.
Proof.
  induction text as [| c text IH]; cbn [first_block].
  - destruct (block_at []) eqn:Hb; [| discriminate]. intros [= ->].
    destruct (block_at_sound _ _ Hb) as (tag & post & Hblock).
    now exists [], [], tag, post.
  - destruct (block_at (c :: text)) eqn:Hb.
    + intros [= ->]. destruct (block_at_sound _ _ Hb) as (tag & post & Hblock).
      now exists [], (c :: text), tag, post.
    + intros Hrest. destruct (IH Hrest) as (pre & s & tag & post & -> & Hblock).
      now exists (c :: pre), s, tag, post.
Qed.

(** C4 (amended). The extractor sees a block only where a triple backtick
    is followed by zero or more characters of [[a-zA-Z0-9_+-]] and then at
    once by a line feed; the body of the block runs to the first triple
    backtick after that line feed. If such a block opens in the text and
    none opens at an earlier position, the extractor returns its body with
    the white space at both ends removed; later blocks play no part. If no
    such block opens anywhere, it returns [None]. What it returns is always
    the trimmed body of such a block. On a text made of the one block
    [```python\nprint(1)\n```] it returns [print(1)], and so it does when a
    second block follows. A fence of another form, such as one tagged [c#]
    or one that ends its line with a carriage return, is passed over. *)
Theorem extract_first_fenced_block :
  (forall pre s tag body post,
     fenced_block s tag body post ->
     (forall pre' s' tag' body' post',
        pre ++ s = pre' ++ s' -> (length pre' < length pre)%nat ->
        ~ fenced_block s' tag' body' post') ->
     extract_code_block (pre ++ s) = Some (strip body))
  /\ (forall text,
        (forall pre s tag body post,
           text = pre ++ s -> ~ fenced_block s tag body post) ->
        extract_code_block text = None)
  /\ (forall text code,
        extract_code_block text = Some code ->
        exists pre s tag body post,
          text = pre ++ s /\ fenced_block s tag body post /\ code = strip body)
  /\ extract_code_block
       (lit "```python" ++ nl ++ lit "print(1)" ++ nl ++ lit "```")
     = Some (lit "print(1)")
  /\ extract_code_block
       (lit "```python" ++ nl ++ lit "print(1)" ++ nl ++ lit "```" ++ nl
        ++ lit "```python" ++ nl ++ lit "print(2)" ++ nl ++ lit "```")
     = Some (lit "print(1)").
Proof.
  split; [| split; [| split; [| split]]].
  - intros pre s tag body post Hblock Hearlier.
    rewrite extract_code_block_eq.
    rewrite (first_block_leftmost pre s body); [reflexivity | |].
    + now apply block_at_complete with tag post.
    + intros pre' s' Heq Hlen.
      destruct (block_at s') as [body' |] eqn:Hb; [| reflexivity].
      destruct (block_at_sound _ _ Hb) as (tag' & post' & Hblock').
      now destruct (Hearlier pre' s' tag' body' post' Heq Hlen).
  - intros text Hnone. rewrite extract_code_block_eq, first_block_none;
      [reflexivity |].
    intros pre s Heq. destruct (block_at s) as [body |] eqn:Hb; [| reflexivity].
    destruct (block_at_sound _ _ Hb) as (tag & post & Hblock).
    now destruct (Hnone pre s tag body post Heq).
  - intros text code. rewrite extract_code_block_eq.
    destruct (first_block text) as [body |] eqn:Hb; [| discriminate].
    intros [= <-]. destruct (first_block_sound _ _ Hb) as (pre & s & tag & post & Heq & Hblock).
    now exists pre, s, tag, body, post.
  - vm_compute. reflexivity.
  - vm_compute. reflexivity.
Qed.

(** C10 (amended). If no triple backtick of the text, whether it opens a
    span or closes one, is followed by zero or more characters of
    [[a-zA-Z0-9_+-]] and then at once by a newline, the extractor returns
    [None]. Whatever the extractor returns is the trimmed text between a
    newline that follows a triple backtick and its tag, and the next triple
    backtick: a span fenced on one line is never returned. It is not
    enough that the opening fences have no newline after them: the fence
    that closes a span may open a match. *)
Theorem extract_requires_newline (text : pystr) :
  ((forall pre tag rest,
      forallb tag_char tag = true ->
      text <> pre ++ fence ++ tag ++ nl ++ rest) ->
   extract_code_block text = None)
  /\ (forall code,
        extract_code_block text = Some code ->
        exists pre tag body post,
          forallb tag_char tag = true
          /\ text = pre ++ fence ++ tag ++ nl ++ body ++ fence ++ post
          /\ code = strip body).
Proof.
  split.
  - intros Hnl. rewrite extract_code_block_eq, first_block_none; [reflexivity |].
    intros pre s Heq. destruct (block_at s) as [body |] eqn:Hb; [| reflexivity].
    destruct (block_at_sound _ _ Hb) as (tag & post & Hs & Htag & _).
    destruct (Hnl pre tag (body ++ fence ++ post) Htag). now rewrite Heq, Hs.
  - intros code. rewrite extract_code_block_eq.
    destruct (first_block text) as [body |] eqn:Hb; [| discriminate].
    intros [= <-].
    destruct (first_block_sound _ _ Hb)
      as (pre & s & tag & post & Heq & Hs & Htag & _).
    exists pre, tag, body, post. split; [exact Htag |].
    split; [now rewrite Heq, Hs | reflexivity].
Qed.

(** ** Checks by computation *)

Lemma any_suffix_before_false (P : pystr -> bool) (n : nat) (text : pystr) :
  any_suffix_before P n text = false ->
  forall pre s, text = pre ++ s -> (length pre < n)%nat -> P s = false.
Proof.
  revert text. induction n as [| n IH]; intros text Hany pre s Heq Hlen; [lia |].
  cbn [any_suffix_before] in Hany. apply orb_false_iff in Hany as [Hhere Hlater].
  destruct pre as [| c pre].
  - cbn [List.app] in Heq. now subst s.
  - subst text. cbn [List.app] in Hlater.
    apply (IH _ Hlater pre s eq_refl). cbn [length] in Hlen. lia.
Qed.

Lemma opens_with_newline_at (tag rest : pystr) :
  forallb tag_char tag = true ->
  opens_with_newline (fence ++ tag ++ nl ++ rest) = true.
Proof.
  intros Htag. unfold opens_with_newline, startswith.
  rewrite strip_prefix_app, skip_tag_newline by exact Htag.
  now rewrite strip_prefix_app.
Qed.

(** No fence, tag and newline in a text, by a check of its suffixes. *)
Lemma no_newline_fence_check (text : pystr) :
  any_suffix_before opens_with_newline (S (length text)) text = false ->
  forall pre tag rest,
    forallb tag_char tag = true -> text <> pre ++ fence ++ tag ++ nl ++ rest.
Proof.
  intros Hany pre tag rest Htag Heq.
  assert (Hlen : (length pre < S (length text))%nat)
    by (rewrite Heq, length_app; lia).
  pose proof (opens_with_newline_at tag rest Htag) as Hopen.
  rewrite (any_suffix_before_false _ _ _ Hany pre _ Heq Hlen) in Hopen.
  discriminate Hopen.
Qed.

(** No fenced block among the first [n] suffixes, by a check. *)
Lemma no_block_check (n : nat) (text : pystr) :
  any_suffix_before opens_block n text = false ->
  forall pre s tag body post,
    text = pre ++ s -> (length pre < n)%nat -> ~ fenced_block s tag body post.
Proof.
  intros Hany pre s tag body post Heq Hlen Hblock.
  pose proof (any_suffix_before_false _ _ _ Hany pre s Heq Hlen) as Hopen.
  unfold opens_block in Hopen.
  rewrite (block_at_complete s tag body post Hblock) in Hopen. discriminate Hopen.
Qed.

(** A fenced block, by a check of its closing fence. *)
Lemma fenced_block_check (s tag body post : pystr) :
  s = fence ++ tag ++ nl ++ body ++ fence ++ post ->
  forallb tag_char tag = true ->
  until_fence (body ++ fence ++ post) = Some body ->
  fenced_block s tag body post.
Proof.
  intros Hs Htag Huntil. split; [exact Hs |]. split; [exact Htag |].
  destruct (until_fence_sound _ _ Huntil) as (post' & Heq & Hfirst).
  apply app_inv_head in Heq. apply app_inv_head in Heq. now subst post'.
Qed.

(** * Examples *)


(** C2, the claim as stated fails: the name [caf] followed by e-acute has a
    character outside [[A-Za-z0-9\-_ .]], yet whatever the Unicode tables
    beyond Latin-1 its file keeps that character, so it is neither the
    name without the characters outside the class nor the file of [caf]. *)
Lemma session_path_keeps_accented_letter :
  existsb (fun c => negb (class_char c)) cafe = true
  /\ forall U : UnicodeData,
       @session_path U cafe = lit "data/caf" ++ [0xE9] ++ lit ".json"
       /\ @session_path U cafe
          <> lit "data/" ++ List.filter class_char cafe ++ lit ".json"
       /\ @session_path U cafe <> @session_path U (lit "caf").
Proof.
  split; [reflexivity |]. intros U.
  assert (Hpath : @session_path U cafe = lit "data/caf" ++ [0xE9] ++ lit ".json")
    by (vm_compute; reflexivity).
  split; [exact Hpath |]. rewrite Hpath. split.
  - intros Heq. vm_compute in Heq. discriminate Heq.
  - intros Heq. vm_compute in Heq. discriminate Heq.
Qed.

(** The sanitization of C2 on a name with a slash and an accented letter. *)
Lemma session_path_sanitized_witness :
  session_path (lit "../" ++ cafe ++ lit " v1.2")
  = lit "data/..caf" ++ [0xE9] ++ lit " v1.2.json"
  /\ session_path (lit "../" ++ cafe ++ lit " v1.2")
     = session_path (lit "..?" ++ cafe ++ lit " v1*.2").
Proof.
  destruct (session_path_sanitized (lit "../" ++ cafe ++ lit " v1.2")
              (lit "..?" ++ cafe ++ lit " v1*.2")) as (Hpath & _ & Hsame).
  split.
  - rewrite Hpath. reflexivity.
  - apply Hsame. reflexivity.
Defined.

(** The two scenarios of C3 with a scripted client. *)
Lemma call_openai_retry_ceiling_witness :
  let req := Request (lit "gpt-4o-mini") [] 0.2%Q 1600%Z in
  call_openai sample_cfg []
    (Api [Raise (Exception "APITimeoutError" (lit "Request timed out."));
          Raise (Exception "RateLimitError" (lit "Rate limit reached."));
          Ok (Some (lit "done"))] [])
  = (Api [] [ApiCall req; Sleep 1.2%Q; ApiCall req; Sleep 1.2%Q; ApiCall req],
     Ok (Some (lit "done")))
  /\ call_openai sample_cfg []
       (Api [Raise (Exception "APITimeoutError" (lit "Request timed out."));
             Raise (Exception "RateLimitError" (lit "Rate limit reached."));
             Raise (Exception "InternalServerError" (lit "Overloaded."))] [])
     = (Api [] [ApiCall req; Sleep 1.2%Q; ApiCall req; Sleep 1.2%Q; ApiCall req;
                Sleep 1.2%Q],
        Raise (Exception "RuntimeError" (lit "Contact OpenAI: Overloaded."))).
Proof.
  intros req. split.
  - pose proof (call_openai_retry_ceiling sample_cfg []
                  (Api [Raise (Exception "APITimeoutError" (lit "Request timed out."));
                        Raise (Exception "RateLimitError" (lit "Rate limit reached."));
                        Ok (Some (lit "done"))] [])) as Hthm.
    cbv zeta in Hthm. destruct Hthm as (_ & Hthird & _).
    apply (Hthird _ _ _ _ _ _ eq_refl eq_refl eq_refl).
  - pose proof (call_openai_retry_ceiling sample_cfg []
                  (Api [Raise (Exception "APITimeoutError" (lit "Request timed out."));
                        Raise (Exception "RateLimitError" (lit "Rate limit reached."));
                        Raise (Exception "InternalServerError" (lit "Overloaded."))]
                     [])) as Hthm.
    cbv zeta in Hthm. destruct Hthm as (_ & _ & Hall).
    apply (Hall _ _ _ _ _ _ eq_refl eq_refl eq_refl).
Defined.

(** C4 on a text with two blocks after some prose, and on a text without
    a block. *)
Lemma extract_first_fenced_block_witness :
  extract_code_block
    (lit "See: "
     ++ (lit "```py" ++ nl ++ lit " x = 1 " ++ nl ++ lit "```"
         ++ lit " and ```" ++ nl ++ lit "y```"))
  = Some (lit "x = 1")
  /\ extract_code_block (lit "no code here") = None.
Proof.
  destruct extract_first_fenced_block as (Hfirst & Hnone & _).
  split.
  - apply (Hfirst (lit "See: ") _ (lit "py") (lit " x = 1 " ++ nl)
             (lit " and ```" ++ nl ++ lit "y```")).
    + apply fenced_block_check; vm_compute; reflexivity.
    + intros pre' s' tag' body' post' Heq Hlen.
      refine (no_block_check 5 _ _ pre' s' tag' body' post' Heq Hlen).
      vm_compute. reflexivity.
  - apply Hnone. intros pre s tag body post Heq.
    refine (no_block_check 13 (lit "no code here") _ pre s tag body post Heq _).
    + vm_compute. reflexivity.
    + apply (f_equal (@length N)) in Heq. rewrite length_app in Heq.
      change (length (lit "no code here")) with 12%nat in Heq. lia.
Defined.

(** C4, the claim as stated fails. The first fenced block of
    [csharp_answer] is tagged [c#] and holds [x]; the extractor passes
    over it and returns the line between its closing fence and the last
    fence. The one block of [crlf_answer] holds [print(1)]; the extractor
    finds nothing. Both hold for the two readings of the language tag. *)
Lemma extract_passes_over_first_block :
  spec_extract skip_word csharp_answer = Some (lit "x")
  /\ spec_extract skip_tag csharp_answer = Some (lit "#" ++ nl ++ lit "x")
  /\ extract_code_block csharp_answer = Some (lit "more")
  /\ spec_extract skip_word crlf_answer = Some (lit "print(1)")
  /\ spec_extract skip_tag crlf_answer = Some (lit "print(1)")
  /\ extract_code_block crlf_answer = None.
Proof.
  repeat split; vm_compute; reflexivity.
Qed.

(** C5, the claim as stated fails: a context with leading spaces is not in
    the prompt as it was given; the section holds it trimmed. *)
Lemma prompt_trims_context :
  exists p,
    build_system_prompt
      (with_inputs (lit "  keep names in English") (lit "NX 2212") ∅)
    = Ok p
    /\ contains p (instructions_section (lit "  keep names in English")) = false
    /\ contains p (instructions_section (lit "keep names in English")) = true.
Proof.
  eexists. split; [apply build_system_prompt_eq |].
  split; vm_compute; reflexivity.
Qed.

(** C6 on two files and a history that holds a system message: the
    request carries the fresh prompt, the user and the assistant message of
    the history, the two files under their headers and the final
    instruction. *)
Lemma turn_message_list_witness :
  exists prompt later,
    build_system_prompt sample_turn_state = Ok prompt
    /\ trace (snd (fst (clean_and_improve sample_cfg
                          [(lit "A.py", lit "print(1)");
                           (lit "B.py", lit "print(2)")]
                          (lit "Process TOGETHER (unified)") None
                          (Streamlit sample_turn_state [],
                           Api [Ok (Some (lit "done"))] []))))
       = ApiCall
           (Request (lit "gpt-4o-mini")
              [PDict [(lit "role", PStr (lit "system"));
                      (lit "content", PStr prompt)];
               PDict [(lit "role", PStr (lit "user"));
                      (lit "content", PStr (lit "hello"))];
               PDict [(lit "role", PStr (lit "assistant"));
                      (lit "content", PStr (lit "hi"))];
               PDict [(lit "role", PStr (lit "user"));
                      (lit "content",
                       PStr (lit "Received code (multiple files unified):" ++ nl
                             ++ lit "```auto" ++ nl
                             ++ lit "// ==== ARCHIVO: A.py ====" ++ nl
                             ++ lit "print(1)" ++ nl ++ nl
                             ++ lit "// ==== ARCHIVO: B.py ====" ++ nl
                             ++ lit "print(2)" ++ nl ++ lit "```"))];
               PDict [(lit "role", PStr (lit "user"));
                      (lit "content",
                       PStr (lit "Process the file(s) respecting the persistent context and the indicated NX version. Return the final code in a single block."))]]
              0.2%Q 1600%Z)
         :: later.
Proof.
  eexists.
  assert (Hkey : api_key sample_cfg <> []) by discriminate.
  assert (Hroles : Forall (fun m => exists role, py_getitem m (lit "role") = Ok role)
                     sample_history)
    by (repeat constructor; eexists; reflexivity).
  pose proof (turn_message_list sample_cfg
                [(lit "A.py", lit "print(1)"); (lit "B.py", lit "print(2)")]
                (lit "Process TOGETHER (unified)") None
                (Streamlit sample_turn_state []) (Api [Ok (Some (lit "done"))] [])
                _ _ sample_history Hkey eq_refl eq_refl eq_refl Hroles) as Hthm.
  cbv zeta in Hthm. destruct Hthm as [(later & Htrace & _) _].
  exists later. split; [reflexivity |].
  rewrite Htrace. vm_compute. reflexivity.
Defined.

(** C7 on the name [does-not-exist] and an empty store. *)
Lemma load_missing_session_witness :
  files empty_fs !! session_path (lit "does-not-exist") = None
  /\ load_session empty_fs (lit "does-not-exist") = Ok PNone.
Proof.
  split; [reflexivity |]. apply load_missing_session. reflexivity.
Defined.

(** C8 on a store whose file [broken.json] is not JSON. *)
Lemma load_failure_keeps_state_witness :
  session_state (fst (on_load_click broken_fs (lit "broken")
                        (Streamlit sample_state [])))
  = sample_state
  /\ on_load_click broken_fs (lit "broken") (Streamlit sample_state [])
     = (Streamlit sample_state [],
        Raise (Exception "JSONDecodeError" (lit "invalid JSON"))).
Proof.
  assert (Hfile : files broken_fs !! session_path (lit "broken")
                  = Some (lit "{not json"))
    by (vm_compute; reflexivity).
  assert (Hbad : json_load (lit "{not json") = None) by reflexivity.
  destruct (load_failure_keeps_state broken_fs (lit "broken")
              (Streamlit sample_state [])
              (or_intror (ex_intro _ _ (conj Hfile Hbad))))
    as (Hsame & Hraise & _ & _).
  split; [exact Hsame |].
  apply (Hraise ltac:(discriminate) ltac:(discriminate) _ Hfile Hbad).
Defined.

(** C10 on the one-line span [```x = 1```]. *)
Lemma extract_requires_newline_witness :
  (forall pre tag rest,
     forallb tag_char tag = true ->
     lit "```x = 1```" <> pre ++ fence ++ tag ++ nl ++ rest)
  /\ extract_code_block (lit "```x = 1```") = None.
Proof.
  assert (Hnl : forall pre tag rest,
            forallb tag_char tag = true ->
            lit "```x = 1```" <> pre ++ fence ++ tag ++ nl ++ rest)
    by (apply no_newline_fence_check; vm_compute; reflexivity).
  split; [exact Hnl |].
  destruct (extract_requires_newline (lit "```x = 1```")) as [Hnone _].
  apply Hnone. exact Hnl.
Defined.

(** C10, the claim as stated fails. In [inline_spans] the two opening
    fences are followed by [pip install x] and by [run], not by a newline,
    for the two readings of the language tag; the extractor returns the
    text between the fence that closes the first span and the fence that
    opens the second. *)
Lemma closing_fence_opens_match :
  opening_fences inline_spans
  = [lit "pip install x```" ++ nl ++ lit "then ```run```"; lit "run```"]
  /\ no_opening_newline skip_tag inline_spans = true
  /\ no_opening_newline skip_word inline_spans = true
  /\ extract_code_block inline_spans = Some (lit "then").
Proof.
  repeat split; vm_compute; reflexivity.
Qed.

(** * Further properties of the script *)

(** Two different literals. *)
Ltac lit_neq :=
  let Heq := fresh "Heq" in
  intros Heq; vm_compute in Heq; discriminate Heq.

(** ** Paths of sessions *)

Lemma first_component_no_slash (s : pystr) :
  Forall (fun c => c <> 47) s -> first_component s = s.
Proof.
  induction 1 as [| c s Hc _ IH]; [reflexivity |].
  cbn [first_component]. apply N.eqb_neq in Hc. now rewrite Hc, IH.
Qed.

Lemma endswith_iff (s p : pystr) :
  endswith s p = true <-> exists a, s = a ++ p.
Proof.
  unfold endswith. rewrite startswith_iff. split.
  - intros [r Hr]. exists (rev r).
    rewrite <- (rev_involutive s), Hr, rev_app_distr. now rewrite rev_involutive.
  - intros [a ->]. exists (rev a). now rewrite rev_app_distr.
Qed.

Lemma drop_suffix5_json (a : pystr) : drop_suffix5 (a ++ lit ".json") = a.
Proof.
  unfold drop_suffix5. rewrite length_app.
  change (length (lit ".json")) with 5%nat.
  replace (length a + 5 - 5)%nat with (length a) by lia.
  apply take_app_length.
Qed.

Section Paths.
Context `{UnicodeData} `{JsonCodec}.

Lemma safe_char_not_separator (c : N) :
  session_safe_char c = true -> path_separator c = false.
Proof.
  intros Hsafe. destruct (path_separator c) eqn:Hsep; [| reflexivity].
  unfold path_separator in Hsep.
  assert (Hc : c = 47 \/ c = 92 \/ c = 0).
  { apply orb_true_iff in Hsep as [Hsep | Hsep];
      [apply orb_true_iff in Hsep as [Hsep | Hsep] |];
      apply N.eqb_eq in Hsep; auto. }
  rewrite safe_char_ascii in Hsafe by (destruct Hc as [-> | [-> | ->]]; lia).
  destruct Hc as [-> | [-> | ->]]; discriminate Hsafe.
Qed.

Lemma safe_stem_no_separator (name : pystr) :
  Forall (fun c => path_separator c = false)
    (List.filter session_safe_char name).
Proof.
  apply Forall_forall. intros c Hc. apply list_elem_of_In, filter_In in Hc.
  now apply safe_char_not_separator.
Qed.

Lemma session_path_entry (name : pystr) :
  dir_entry DATA_DIR (session_path name)
  = Some (List.filter session_safe_char name ++ lit ".json").
Proof.
  rewrite session_path_eq. unfold dir_entry.
  change (DATA_DIR ++ lit "/") with (lit "data/").
  rewrite strip_prefix_app, first_component_no_slash.
  - destruct (List.filter session_safe_char name); reflexivity.
  - apply Forall_app. split.
    + eapply Forall_impl; [apply safe_stem_no_separator |].
      intros c Hc ->. discriminate Hc.
    + repeat constructor; discriminate.
Qed.

(** X1. The file of a session lies directly in [data/]: after [data/] the
    path holds no slash, no backslash and no NUL, whatever the name, so no
    name reaches a file outside the store. *)
Theorem session_path_stays_in_store (name : pystr) :
  exists stem,
    session_path name = lit "data/" ++ stem ++ lit ".json"
    /\ Forall (fun c => path_separator c = false) (stem ++ lit ".json")
    /\ dir_entry DATA_DIR (session_path name) = Some (stem ++ lit ".json").
Proof.
  exists (List.filter session_safe_char name).
  split; [apply session_path_eq |]. split; [| apply session_path_entry].
  apply Forall_app. split; [apply safe_stem_no_separator |].
  repeat constructor.
Qed.

Lemma filter_twice {A} (f : A -> bool) (l : list A) :
  List.filter f (List.filter f l) = List.filter f l.
Proof.
  induction l as [| x l IH]; [reflexivity |]. cbn [List.filter].
  destruct (f x) eqn:Hx; [| exact IH]. cbn [List.filter]. now rewrite Hx, IH.
Qed.

Lemma session_path_of_stem (name : pystr) :
  session_path (List.filter session_safe_char name) = session_path name.
Proof. rewrite !session_path_eq. now rewrite filter_twice. Qed.

Lemma save_session_writes (now name : pystr) (state : gmap pystr pyval)
    (fs : filesystem) :
  writable fs (session_path name) = true ->
  save_session now name state fs
  = (Filesystem
       (<[session_path name := json_dump (session_payload now state)]> (files fs))
       (writable fs),
     Ok tt).
Proof. intros Hw. unfold save_session. now rewrite Hw. Qed.



End Paths.

(** ** The list of sessions *)

Lemma pystr_leb_total (a b : pystr) :
  pystr_leb a b = true \/ pystr_leb b a = true.
Proof.
  revert b. induction a as [| x a IH]; intros b; [now left |].
  destruct b as [| y b]; [now right |]. cbn [pystr_leb].
  destruct (N.ltb_spec x y), (N.ltb_spec y x); try lia; auto.
Qed.

Lemma pystr_leb_trans (a b c : pystr) :
  pystr_leb a b = true -> pystr_leb b c = true -> pystr_leb a c = true.
Proof.
  revert b c. induction a as [| x a IH]; intros b c; [reflexivity |].
  destruct b as [| y b]; [discriminate |].
  destruct c as [| z c]; [intros _ Hbc; discriminate Hbc |].
  cbn [pystr_leb].
  destruct (N.ltb_spec x y), (N.ltb_spec y x), (N.ltb_spec y z),
    (N.ltb_spec z y), (N.ltb_spec x z), (N.ltb_spec z x);
    try lia; try discriminate; try reflexivity.
  apply IH.
Qed.

Lemma pystr_leb_antisym (a b : pystr) :
  pystr_leb a b = true -> pystr_leb b a = true -> a = b.
Proof.
  revert b. induction a as [| x a IH]; intros b.
  - now destruct b.
  - destruct b as [| y b]; [discriminate |]. cbn [pystr_leb].
    destruct (N.ltb_spec x y), (N.ltb_spec y x); try lia; try discriminate.
    intros Hab Hba. f_equal; [lia | now apply IH].
Qed.

#[local] Instance pystr_le_total : Total pystr_le.
Proof. intros a b. apply pystr_leb_total. Qed.

#[local] Instance pystr_le_trans : Transitive pystr_le.
Proof. intros a b c. apply pystr_leb_trans. Qed.

#[local] Instance pystr_le_antisym : AntiSymm (=) pystr_le.
Proof. intros a b. apply pystr_leb_antisym. Qed.

Lemma os_listdir_elem (fs : filesystem) (d e : pystr) :
  e ∈ os_listdir fs d
  <-> exists p, is_Some (files fs !! p) /\ dir_entry d p = Some e.
Proof.
  unfold os_listdir.
  rewrite elem_of_elements, elem_of_list_to_set, list_elem_of_omap.
  split.
  - intros (p & Hp & He). exists p. split; [| exact He].
    now apply elem_of_elements, elem_of_dom in Hp.
  - intros (p & Hp & He). exists p. split; [| exact He].
    now apply elem_of_elements, elem_of_dom.
Qed.

(** The names before sorting. *)
Lemma session_names_elem (fs : filesystem) (s : pystr) :
  In s (List.map drop_suffix5
          (List.filter (fun f => endswith f (lit ".json"))
             (os_listdir fs DATA_DIR)))
  <-> s ++ lit ".json" ∈ os_listdir fs DATA_DIR.
Proof.
  rewrite in_map_iff. split.
  - intros (e & <- & He). apply filter_In in He as [He Hjson].
    apply endswith_iff in Hjson as [a ->]. rewrite drop_suffix5_json.
    now apply list_elem_of_In.
  - intros He. exists (s ++ lit ".json"). split; [apply drop_suffix5_json |].
    apply filter_In. split; [now apply list_elem_of_In |].
    apply endswith_iff. now exists s.
Qed.

Lemma list_sessions_elem (fs : filesystem) (s : pystr) :
  s ∈ list_sessions fs <-> s ++ lit ".json" ∈ os_listdir fs DATA_DIR.
Proof.
  unfold list_sessions. case_bool_decide as Hnil.
  - rewrite Hnil. split; intros Hin; inversion Hin.
  - unfold sorted. rewrite merge_sort_Permutation, list_elem_of_In.
    apply session_names_elem.
Qed.

Lemma list_sessions_NoDup (fs : filesystem) : NoDup (list_sessions fs).
Proof.
  unfold list_sessions. case_bool_decide as Hnil; [constructor |].
  unfold sorted. rewrite merge_sort_Permutation.
  change (List.map drop_suffix5 ?l) with (drop_suffix5 <$> l).
  apply NoDup_fmap_2_strong.
  - intros e1 e2 He1 He2 Heq.
    apply list_elem_of_In, filter_In in He1 as [_ H1].
    apply list_elem_of_In, filter_In in He2 as [_ H2].
    apply endswith_iff in H1 as [a1 ->]. apply endswith_iff in H2 as [a2 ->].
    rewrite !drop_suffix5_json in Heq. now subst a2.
  - apply NoDup_ListNoDup, List.NoDup_filter, NoDup_ListNoDup, NoDup_elements.
Qed.

(** X4. The list of sessions is in ascending order of [str] and names no
    session twice. *)
Theorem list_sessions_sorted (fs : filesystem) :
  StronglySorted pystr_le (list_sessions fs) /\ NoDup (list_sessions fs).
Proof.
  split; [| apply list_sessions_NoDup].
  unfold list_sessions. case_bool_decide; [constructor |].
  unfold sorted. apply StronglySorted_merge_sort; apply _.
Qed.

Lemma list_sessions_paths (fs : filesystem) (s : pystr) :
  s ∈ list_sessions fs
  <-> exists p, is_Some (files fs !! p)
                /\ dir_entry DATA_DIR p = Some (s ++ lit ".json").
Proof. rewrite list_sessions_elem. apply os_listdir_elem. Qed.

(** X5. A name is listed exactly when [data/] has an entry of that name
    followed by [.json]: some path of the store runs through it. Entries
    without that ending are not sessions. *)
Theorem list_sessions_entries (fs : filesystem) (s : pystr) :
  s ∈ list_sessions fs
  <-> exists p, is_Some (files fs !! p)
                /\ dir_entry DATA_DIR p = Some (s ++ lit ".json").
Proof. apply list_sessions_paths. Qed.

Section Listing.
Context `{UnicodeData} `{JsonCodec}.

Lemma saved_session_listed (now name : pystr) (state : gmap pystr pyval)
    (fs : filesystem) :
  writable fs (session_path name) = true ->
  List.filter session_safe_char name
  ∈ list_sessions (fst (save_session now name state fs)).
Proof.
  intros Hw. rewrite (save_session_writes now name state fs Hw). cbn [fst].
  apply list_sessions_paths. exists (session_path name). cbn [files].
  split; [rewrite lookup_insert_eq; eauto | apply session_path_entry].
Qed.




(** X7. A name without any character that is kept is saved as
    [data/.json]; the session is listed under the empty name, and the Load
    handler does nothing at all when the empty name is selected. *)
Theorem unnamed_session_not_loadable (now name : pystr)
    (state : gmap pystr pyval) (fs : filesystem) (a : streamlit) :
  List.filter session_safe_char name = [] ->
  writable fs (session_path name) = true ->
  session_path name = lit "data/.json"
  /\ [] ∈ list_sessions (fst (save_session now name state fs))
  /\ on_load_click (fst (save_session now name state fs)) [] a = (a, Ok tt).
Proof.
  intros Hnone Hw. split; [| split].
  - now rewrite session_path_eq, Hnone.
  - rewrite <- Hnone. now apply saved_session_listed.
  - reflexivity.
Qed.

End Listing.

(** ** Loading *)

Section Loading.
Context `{UnicodeData} `{JsonCodec}.

Lemma on_load_click_dict (fs : filesystem) (sel : pystr) (a : streamlit)
    (d : list (pystr * pyval)) :
  sel <> [] -> sel <> lit "(select)" ->
  load_session fs sel = Ok (PDict d) -> d <> [] ->
  on_load_click fs sel a
  = (Streamlit (restored d sel (session_state a))
       (page a ++ [StSuccess
                     (lit "Session '" ++ sel
                      ++ lit "' loaded. (Files must be re-uploaded if required)")]),
     Ok tt).
Proof.
  intros Hne Hsel Hload Hd. unfold on_load_click.
  apply pystr_eqb_neq in Hne, Hsel. rewrite Hne, Hsel. cbn [negb andb].
  unfold se_bind at 1, se_lift at 1. rewrite Hload.
  destruct d as [| kv d]; [contradiction |]. reflexivity.
Qed.

(** X8. A load of a file that holds a non-empty object replaces the five
    fields and nothing else: every other key of the state, as
    [uploaded_files], stays as it is. A field that the file does not have
    is not kept either: it is reset to [""], [[]] or ["NX 2212"]. *)
Theorem load_replaces_five_fields (fs : filesystem) (sel : pystr)
    (a : streamlit) (d : list (pystr * pyval)) :
  sel <> [] -> sel <> lit "(select)" ->
  load_session fs sel = Ok (PDict d) -> d <> [] ->
  let state' := session_state (fst (on_load_click fs sel a)) in
  snd (on_load_click fs sel a) = Ok tt
  /\ (forall k,
        ~ In k [lit "persistent_context"; lit "messages"; lit "nx_version";
                lit "uploaded_files_meta"; lit "current_session_name"] ->
        state' !! k = session_state a !! k)
  /\ state' !! lit "current_session_name" = Some (PStr sel)
  /\ state' !! lit "persistent_context"
     = Some (default (PStr []) (dict_lookup d (lit "persistent_context")))
  /\ state' !! lit "messages"
     = Some (default (PList []) (dict_lookup d (lit "messages")))
  /\ state' !! lit "nx_version"
     = Some (default (PStr (lit "NX 2212")) (dict_lookup d (lit "nx_version")))
  /\ state' !! lit "uploaded_files_meta"
     = Some (default (PList []) (dict_lookup d (lit "uploaded_files_meta"))).
Proof.
  intros Hne Hsel Hload Hd state'. subst state'.
  rewrite (on_load_click_dict fs sel a d Hne Hsel Hload Hd).
  cbn [fst snd session_state]. unfold restored, dict_get.
  split; [reflexivity |]. split.
  - intros k Hk. cbn [In] in Hk.
    rewrite !lookup_insert_ne by (intros <-; apply Hk; auto 10). reflexivity.
  - repeat split;
      repeat (first [ apply lookup_insert_eq
                    | rewrite lookup_insert_ne by lit_neq ]).
Qed.

(** X9. A file that is valid JSON but does not hold a non-empty object is
    never loaded. When its value is false for [if] ([null], [false], [0],
    [""], [[]], [{}]) the page reports that the session could not be
    loaded; when it is true (a number, a string, a list) the handler raises
    an [AttributeError]. The state is as before in both cases. *)
Theorem load_rejects_non_object (fs : filesystem) (sel : pystr)
    (a : streamlit) (v : pyval) :
  sel <> [] -> sel <> lit "(select)" ->
  load_session fs sel = Ok v ->
  (forall d, v = PDict d -> d = []) ->
  on_load_click fs sel a
  = if truthy v
    then (a, Raise (Exception "AttributeError"
                      (lit "object has no attribute 'get'")))
    else (Streamlit (session_state a)
            (page a ++ [StError (lit "The session could not be loaded.")]),
          Ok tt).
Proof.
  intros Hne Hsel Hload Hv. unfold on_load_click.
  apply pystr_eqb_neq in Hne, Hsel. rewrite Hne, Hsel. cbn [negb andb].
  unfold se_bind at 1, se_lift at 1. rewrite Hload.
  destruct v as [| b | z | x | s | l | d]; cbn [truthy].
  - reflexivity.
  - destruct b; reflexivity.
  - destruct (negb (z =? 0)%Z); reflexivity.
  - destruct (negb (Qeq_bool x 0)); reflexivity.
  - destruct (negb (pystr_eqb s [])); reflexivity.
  - destruct l; reflexivity.
  - rewrite (Hv d eq_refl). reflexivity.
Qed.

End Loading.

(** ** Initial status *)

Lemma state_init_lookup (k k' : pystr) (v : pyval) (state : gmap pystr pyval) :
  state_init k v state !! k'
  = match state !! k' with
    | Some x => Some x
    | None => if bool_decide (k = k') then Some v else None
    end.
Proof.
  unfold state_init. destruct (state !! k) as [x |] eqn:Hk.
  - destruct (state !! k') eqn:Hk'; [reflexivity |].
    case_bool_decide; [congruence | reflexivity].
  - case_bool_decide as Heq.
    + subst k'. now rewrite lookup_insert_eq, Hk.
    + rewrite lookup_insert_ne by exact Heq. now destruct (state !! k').
Qed.

Lemma state_init_present (k : pystr) (v : pyval) (state : gmap pystr pyval) :
  is_Some (state !! k) -> state_init k v state = state.
Proof. intros [x Hx]. unfold state_init. now rewrite Hx. Qed.

Lemma initial_status_keeps (state : gmap pystr pyval) (k : pystr) (v : pyval) :
  state !! k = Some v -> initial_status state !! k = Some v.
Proof.
  intros Hk. unfold initial_status. cbv zeta.
  rewrite !state_init_lookup. now rewrite Hk.
Qed.

Lemma initial_status_other (state : gmap pystr pyval) (k : pystr) :
  ~ In k [lit "messages"; lit "persistent_context"; lit "uploaded_files";
          lit "uploaded_files_meta"; lit "nx_version";
          lit "current_session_name"] ->
  initial_status state !! k = state !! k.
Proof.
  intros Hk. cbn [In] in Hk. unfold initial_status. cbv zeta.
  rewrite !state_init_lookup. destruct (state !! k); [reflexivity |].
  repeat (case_bool_decide as Heq; [exfalso; apply Hk; auto 10 | clear Heq]).
  reflexivity.
Qed.

Lemma initial_status_present (state : gmap pystr pyval) (k : pystr) :
  In k [lit "messages"; lit "persistent_context"; lit "uploaded_files";
        lit "uploaded_files_meta"; lit "nx_version";
        lit "current_session_name"] ->
  is_Some (initial_status state !! k).
Proof.
  intros Hk. unfold initial_status. cbv zeta.
  rewrite !state_init_lookup. destruct (state !! k); [eauto |].
  cbn [In] in Hk.
  destruct Hk as [<- | [<- | [<- | [<- | [<- | [<- | []]]]]]];
    vm_compute; eauto.
Qed.

(** X10. The initial block gives each of the six keys of the state a
    value and never replaces one: a value that is there is kept, keys
    other than the six are not touched, and running the block again
    changes nothing. A fresh state gets empty messages, context and
    uploads, the version [NX 2212] and the session name [sesion-nx]. *)
Theorem initial_status_defaults (state : gmap pystr pyval) :
  (forall k v, state !! k = Some v -> initial_status state !! k = Some v)
  /\ (forall k,
        In k [lit "messages"; lit "persistent_context"; lit "uploaded_files";
              lit "uploaded_files_meta"; lit "nx_version";
              lit "current_session_name"] ->
        is_Some (initial_status state !! k))
  /\ (forall k,
        ~ In k [lit "messages"; lit "persistent_context"; lit "uploaded_files";
                lit "uploaded_files_meta"; lit "nx_version";
                lit "current_session_name"] ->
        initial_status state !! k = state !! k)
  /\ initial_status (initial_status state) = initial_status state
  /\ initial_status ∅
     = list_to_map
         [(lit "messages", PList []);
          (lit "persistent_context", PStr []);
          (lit "uploaded_files", PDict []);
          (lit "uploaded_files_meta", PList []);
          (lit "nx_version", PStr (lit "NX 2212"));
          (lit "current_session_name", PStr (lit "sesion-nx"))].
Proof.
  split; [apply initial_status_keeps |].
  split; [apply initial_status_present |].
  split; [apply initial_status_other |]. split.
  - apply map_eq. intros k.
    destruct (initial_status state !! k) as [v |] eqn:Hk;
      [now apply initial_status_keeps |].
    destruct (decide (In k [lit "messages"; lit "persistent_context";
                            lit "uploaded_files"; lit "uploaded_files_meta";
                            lit "nx_version"; lit "current_session_name"]))
      as [Hin | Hout].
    + destruct (initial_status_present state k Hin) as [v Hv]. congruence.
    + now rewrite initial_status_other.
  - apply map_eq. intros k. unfold initial_status. cbv zeta.
    rewrite !state_init_lookup, lookup_empty. cbn [list_to_map foldr].
    unfold uncurry. cbn [fst snd].
    rewrite !lookup_insert, lookup_empty.
    repeat case_bool_decide; repeat case_decide; subst;
      try reflexivity; try congruence;
      match goal with Hneq : ?x <> ?x |- _ => now destruct Hneq
                 | Heq : lit _ = lit _ |- _ => now vm_compute in Heq end.
Qed.

(** ** Uploads *)

Lemma pystr_eqb_sym_false (a b : pystr) :
  pystr_eqb a b = false -> pystr_eqb b a = false.
Proof. rewrite !pystr_eqb_neq. congruence. Qed.

Lemma dict_lookup_set (d : list (pystr * pyval)) (k k' : pystr) (v : pyval) :
  dict_lookup (dict_set d k v) k'
  = if pystr_eqb k k' then Some v else dict_lookup d k'.
Proof.
  induction d as [| [k0 v0] d IH]; cbn [dict_set dict_lookup].
  - reflexivity.
  - destruct (pystr_eqb k0 k) eqn:Hk0; cbn [dict_lookup].
    + apply pystr_eqb_eq in Hk0. subst k0. now destruct (pystr_eqb k k').
    + rewrite IH. destruct (pystr_eqb k0 k') eqn:Hk0'; [| reflexivity].
      apply pystr_eqb_eq in Hk0'. subst k'. now rewrite pystr_eqb_sym_false.
Qed.

Lemma files_lookup_app (l1 l2 : list (pystr * pystr)) (k : pystr) :
  files_lookup (l1 ++ l2) k
  = match files_lookup l1 k with
    | Some t => Some t
    | None => files_lookup l2 k
    end.
Proof.
  induction l1 as [| [k0 t0] l1 IH]; cbn [files_lookup List.app]; [reflexivity |].
  now destruct (pystr_eqb k0 k).
Qed.

(** The dictionary that the loop over the uploads builds from [d]. *)
Local Notation "'filled' ups d" :=
  (fold_left
     (fun acc (up : pystr * pystr) => dict_set acc (fst up) (PStr (snd up)))
     ups d)
  (at level 10, ups at level 9, d at level 9, only parsing).

Lemma filled_lookup (ups : list (pystr * pystr)) (d : list (pystr * pyval))
    (name : pystr) :
  dict_lookup (filled ups d) name
  = match files_lookup (rev ups) name with
    | Some t => Some (PStr t)
    | None => dict_lookup d name
    end.
Proof.
  revert d. induction ups as [| [k t] ups IH]; intros d; [reflexivity |].
  cbn [fold_left rev fst snd]. rewrite IH, files_lookup_app, dict_lookup_set.
  destruct (files_lookup (rev ups) name); [reflexivity |].
  cbn [files_lookup]. now destruct (pystr_eqb k name).
Qed.

Lemma dict_set_fresh (d : list (pystr * pyval)) (k : pystr) (v : pyval) :
  dict_lookup d k = None -> dict_set d k v = d ++ [(k, v)].
Proof.
  induction d as [| [k0 v0] d IH]; cbn [dict_set dict_lookup List.app];
    [reflexivity |].
  destruct (pystr_eqb k0 k); [discriminate |]. intros Hd. now rewrite IH.
Qed.

Lemma filled_distinct (ups : list (pystr * pystr)) (d : list (pystr * pyval)) :
  List.NoDup (List.map fst ups) ->
  (forall up, In up ups -> dict_lookup d (fst up) = None) ->
  filled ups d = d ++ List.map (fun up => (fst up, PStr (snd up))) ups.
Proof.
  revert d. induction ups as [| [k t] ups IH]; intros d Hnodup Hfresh.
  - cbn. now rewrite app_nil_r.
  - cbn [fold_left List.map fst snd] in *.
    apply List.NoDup_cons_iff in Hnodup as [Hk Hnodup].
    rewrite IH; [| exact Hnodup |].
    + rewrite dict_set_fresh by (apply (Hfresh (k, t)); now left).
      now rewrite <- app_assoc.
    + intros up Hup. rewrite dict_lookup_set.
      destruct (pystr_eqb k (fst up)) eqn:Heq.
      * apply pystr_eqb_eq in Heq. subst k. destruct Hk. now apply in_map.
      * apply Hfresh. now right.
Qed.

Lemma for_each_upload (ups : list (pystr * pystr)) (a : streamlit)
    (d : list (pystr * pyval)) (m : list pyval) :
  session_state a !! lit "uploaded_files" = Some (PDict d) ->
  session_state a !! lit "uploaded_files_meta" = Some (PList m) ->
  exists state',
    for_each upload_one ups a = (Streamlit state' (page a), Ok tt)
    /\ state' !! lit "uploaded_files" = Some (PDict (filled ups d))
    /\ state' !! lit "uploaded_files_meta"
       = Some (PList (m ++ List.map upload_meta ups))
    /\ forall k, k <> lit "uploaded_files" -> k <> lit "uploaded_files_meta" ->
         state' !! k = session_state a !! k.
Proof.
  revert a d m. induction ups as [| up ups IH]; intros a d m Hd Hm.
  - exists (session_state a). destruct a as [st pg]. cbn in *.
    rewrite app_nil_r. auto.
  - cbn [for_each]. unfold se_bind at 1.
    assert (Hone : upload_one up a
              = (Streamlit
                   (<[lit "uploaded_files_meta" := PList (m ++ [upload_meta up])]>
                    (<[lit "uploaded_files" :=
                         PDict (dict_set d (fst up) (PStr (snd up)))]>
                       (session_state a)))
                   (page a),
                 Ok tt)).
    { unfold upload_one, se_bind, state_getitem, se_lift, state_set.
      rewrite Hd. cbn [py_setitem session_state page].
      rewrite lookup_insert_ne by lit_neq. rewrite Hm. reflexivity. }
    rewrite Hone.
    destruct (IH (Streamlit
                    (<[lit "uploaded_files_meta" := PList (m ++ [upload_meta up])]>
                     (<[lit "uploaded_files" :=
                          PDict (dict_set d (fst up) (PStr (snd up)))]>
                        (session_state a)))
                    (page a))
                (dict_set d (fst up) (PStr (snd up))) (m ++ [upload_meta up]))
      as (state' & Hrun & Hfiles & Hmeta & Hother).
    + cbn [session_state]. rewrite lookup_insert_ne by lit_neq.
      apply lookup_insert_eq.
    + cbn [session_state]. apply lookup_insert_eq.
    + exists state'. cbn [page session_state] in *.
      split; [exact Hrun |]. split; [exact Hfiles |]. split.
      * rewrite Hmeta. cbn [List.map]. now rewrite <- app_assoc.
      * intros k Hk1 Hk2. rewrite (Hother k Hk1 Hk2).
        now rewrite !lookup_insert_ne by congruence.
Qed.

Lemma on_upload_run (ups : list (pystr * pystr)) (a : streamlit) :
  on_upload [] a = (a, Ok tt)
  /\ (ups <> [] ->
      exists state' d,
        on_upload ups a
        = (Streamlit state'
             (page a ++ [StSuccess (str_of_nat (length ups)
                                    ++ lit " archivo(s) cargado(s).")]),
           Ok tt)
        /\ state' !! lit "uploaded_files_meta"
           = Some (PList (List.map upload_meta ups))
        /\ state' !! lit "uploaded_files" = Some (PDict d)
        /\ (forall name,
              dict_lookup d name
              = option_map PStr (files_lookup (rev ups) name))
        /\ (List.NoDup (List.map fst ups) ->
            d = List.map (fun up => (fst up, PStr (snd up))) ups)
        /\ forall k, k <> lit "uploaded_files" ->
                     k <> lit "uploaded_files_meta" ->
             state' !! k = session_state a !! k).
Proof.
  split; [reflexivity |]. intros Hne.
  destruct ups as [| up ups]; [contradiction |].
  set (a0 := Streamlit
               (<[lit "uploaded_files_meta" := PList []]>
                (<[lit "uploaded_files" := PDict []]> (session_state a)))
               (page a)).
  destruct (for_each_upload (up :: ups) a0 [] []) as (state' & Hrun & Hfiles & Hmeta & Hother).
  { cbn [a0 session_state]. rewrite lookup_insert_ne by lit_neq.
    apply lookup_insert_eq. }
  { cbn [a0 session_state]. apply lookup_insert_eq. }
  exists state', (filled (up :: ups) []).
  split; [| split; [exact Hmeta | split; [exact Hfiles | split; [| split]]]].
  - unfold on_upload. unfold se_bind at 1, state_set at 1.
    unfold se_bind at 1, state_set at 1. cbn [session_state page].
    fold a0. unfold se_bind at 1. rewrite Hrun. reflexivity.
  - intros name. rewrite filled_lookup.
    now destruct (files_lookup (rev (up :: ups)) name).
  - intros Hnodup. now rewrite filled_distinct.
  - intros k Hk1 Hk2. rewrite (Hother k Hk1 Hk2). cbn [a0 session_state].
    now rewrite !lookup_insert_ne by congruence.
Qed.


(** X11. A batch of uploads replaces [uploaded_files] and
    [uploaded_files_meta], whatever they held, and touches no other key.
    The metadata holds one record per upload, in upload order, with the
    length of its text; the files map each name to the text of the last
    upload of that name. The handler does not raise, and an empty batch
    changes nothing. *)
Theorem on_upload_replaces (ups : list (pystr * pystr)) (a : streamlit) :
  on_upload [] a = (a, Ok tt)
  /\ (ups <> [] ->
      exists state' d,
        on_upload ups a
        = (Streamlit state'
             (page a ++ [StSuccess (str_of_nat (length ups)
                                    ++ lit " archivo(s) cargado(s).")]),
           Ok tt)
        /\ state' !! lit "uploaded_files_meta"
           = Some (PList (List.map upload_meta ups))
        /\ state' !! lit "uploaded_files" = Some (PDict d)
        /\ (forall name,
              dict_lookup d name
              = option_map PStr (files_lookup (rev ups) name))
        /\ (List.NoDup (List.map fst ups) ->
            d = List.map (fun up => (fst up, PStr (snd up))) ups)
        /\ forall k, k <> lit "uploaded_files" ->
                     k <> lit "uploaded_files_meta" ->
             state' !! k = session_state a !! k).
Proof. apply on_upload_run. Qed.

Lemma uploaded_items_of (state : gmap pystr pyval) (ups : list (pystr * pystr)) :
  state !! lit "uploaded_files"
  = Some (PDict (List.map (fun up => (fst up, PStr (snd up))) ups)) ->
  uploaded_items state = ups.
Proof.
  intros Hfiles. unfold uploaded_items. rewrite Hfiles. cbn [from_option id].
  clear Hfiles. induction ups as [| [k t] ups IH]; [reflexivity |].
  cbn. f_equal. exact IH.
Qed.

(** X12. After a batch of uploads with distinct names, the Clean & Improve
    handler reads the files back as they were uploaded, names and texts in
    upload order; each metadata record carries the length of the text kept
    under its name; and the payload of the unified mode shows every file,
    in upload order, under a header line with its name. *)
Theorem upload_then_unified (ups : list (pystr * pystr)) (a : streamlit)
    (join_mode : pystr) (selected : option pystr) :
  ups <> [] ->
  List.NoDup (List.map fst ups) ->
  pystr_eqb join_mode (lit "Process SELECTED file") && truthy_opt selected
  = false ->
  let state' := session_state (fst (on_upload ups a)) in
  uploaded_items state' = ups
  /\ state' !! lit "uploaded_files_meta"
     = Some (PList (List.map upload_meta (uploaded_items state')))
  /\ code_message (uploaded_items state') join_mode selected
     = Ok (lit "Received code (multiple files unified):" ++ nl
           ++ lit "```auto" ++ nl
           ++ str_join (nl ++ nl) (List.map unified_part ups)
           ++ nl ++ lit "```").
Proof.
  intros Hne Hnodup Hmode state'. subst state'.
  destruct (on_upload_run ups a) as [_ Hup].
  destruct (Hup Hne) as (state' & d & Hrun & Hmeta & Hfiles & _ & Hd & _).
  rewrite Hrun. cbn [fst session_state]. rewrite (Hd Hnodup) in Hfiles.
  rewrite (uploaded_items_of state' ups Hfiles).
  split; [reflexivity |]. split; [exact Hmeta |].
  unfold code_message. now rewrite Hmode.
Qed.

(** ** Outcomes of a turn *)

Lemma assemble_messages_state (code_msg : pystr) (a : streamlit) :
  fst (assemble_messages code_msg a) = a.
Proof.
  unfold assemble_messages, se_bind, state_getitem, se_lift, se_ret.
  destruct (build_system_prompt (session_state a)); [| reflexivity].
  destruct (session_state a !! lit "messages") as [v |]; [| reflexivity].
  destruct (py_iter v) as [history |]; [| reflexivity].
  destruct (replay_history history); reflexivity.
Qed.

Lemma replay_history_stops (good rest : list pyval) (bad : pyval) (e : exn) :
  Forall (fun m => exists role, py_getitem m (lit "role") = Ok role) good ->
  py_getitem bad (lit "role") = Raise e ->
  replay_history (good ++ bad :: rest) = Raise e.
Proof.
  intros Hgood Hbad. induction Hgood as [| m good [role Hrole] _ IH].
  - cbn [List.app replay_history]. now rewrite Hbad.
  - cbn [List.app replay_history]. now rewrite Hrole, IH.
Qed.

Section Outcomes.
Context `{UnicodeData} {C : Type} `{ChatClient C}.

(** What the handler does below the answer. *)
Lemma offer_download_run (selected : option pystr) (result : pystr)
    (a : streamlit) :
  offer_download selected result a
  = if truthy_opt (extract_code_block result) then
      match utf8_encode (default [] (extract_code_block result)) with
      | Ok data =>
          (Streamlit (session_state a)
             (page a ++
              [StDownloadButton
                 ([0x2B07; 0xFE0F] ++ lit " Download proposed code")
                 data (lit "improved_code.py") (lit "text/plain")]),
           Ok tt)
      | Raise e => (a, Raise e)
      end
    else
      (Streamlit (session_state a)
         (page a ++
          [StInfo (lit "No code block formatted with ```. Copy and paste manually.")]),
       Ok tt).
Proof.
  unfold offer_download.
  destruct (truthy_opt (extract_code_block result)); [| reflexivity].
  unfold se_bind, se_lift.
  destruct (utf8_encode _) as [data | e]; [| reflexivity].
  destruct (truthy_opt selected && _); reflexivity.
Qed.

(** The last thing drawn by a turn whose call returned [result]. *)
Lemma clean_and_improve_run (cfg : sidebar) (files : list (pystr * pystr))
    (join_mode : pystr) (selected : option pystr) (a : streamlit) (x : api C)
    (code_msg : pystr) (msgs : list pyval) :
  api_key cfg <> [] ->
  code_message files join_mode selected = Ok code_msg ->
  assemble_messages code_msg a = (a, Ok msgs) ->
  clean_and_improve cfg files join_mode selected (a, x)
  = match call_openai cfg msgs x with
    | (x', Ok result) =>
        ((Streamlit (session_state a)
            (page a ++
             [StSuccess (lit "Done! Check the result below.");
              StMarkdown (Some (lit "### " ++ [0x1F4C4] ++ lit " Result"));
              StMarkdown result;
              match result with
              | Some r =>
                  if truthy_opt (extract_code_block r) then
                    match utf8_encode (default [] (extract_code_block r)) with
                    | Ok data =>
                        StDownloadButton
                          ([0x2B07; 0xFE0F] ++ lit " Download proposed code")
                          data (lit "improved_code.py") (lit "text/plain")
                    | Raise e =>
                        StError (lit "Ops! An error occurred: " ++ str_exn e)
                    end
                  else
                    StInfo (lit "No code block formatted with ```. Copy and paste manually.")
              | None =>
                  StError (lit "Ops! An error occurred: "
                           ++ lit "expected string or bytes-like object, got 'NoneType'")
              end]),
          x'),
         Ok tt)
    | (x', Raise e) =>
        ((Streamlit (session_state a)
            (page a ++ [StError (lit "Ops! An error occurred: " ++ str_exn e)]),
          x'),
         Ok tt)
    end.
Proof.
  intros Hkey Hcode Hmsgs. apply pystr_eqb_neq in Hkey.
  unfold clean_and_improve, ensure_client. rewrite Hkey, Hcode.
  unfold se_bind at 1, in_app at 1, se_ret at 1. cbn [fst snd].
  unfold se_bind at 1, se_lift at 1.
  unfold se_bind at 1, in_app at 1. cbn [fst snd]. rewrite Hmsgs.
  unfold se_try, se_bind at 1, in_api at 1. cbn [fst snd].
  destruct (call_openai cfg msgs x) as [x' [r | e]]; cbn [fst snd].
  - unfold se_bind, in_app, st_write, se_lift.
    cbn [fst snd session_state page].
    destruct r as [r |]; cbn [re_subject fst snd session_state page str_exn].
    + rewrite offer_download_run. cbn [session_state page].
      destruct (truthy_opt (extract_code_block r)).
      * destruct (utf8_encode _) as [data | e];
          cbn [fst snd session_state page]; now rewrite <- !app_assoc.
      * cbn [fst snd]. now rewrite <- !app_assoc.
    + now rewrite <- !app_assoc.
  - reflexivity.
Qed.

(** X13. A turn never changes [st.session_state], whatever its inputs and
    its outcome: the exchange is not added to [messages], and nothing the
    model answers reaches the state. *)
Theorem turn_keeps_session_state (cfg : sidebar)
    (files : list (pystr * pystr)) (join_mode : pystr)
    (selected : option pystr) (a : streamlit) (x : api C) :
  session_state (fst (fst (clean_and_improve cfg files join_mode selected (a, x))))
  = session_state a.
Proof.
  destruct (pystr_eqb (api_key cfg) []) eqn:Hkey.
  { unfold clean_and_improve, ensure_client. rewrite Hkey. reflexivity. }
  apply pystr_eqb_neq in Hkey.
  destruct (code_message files join_mode selected) as [code_msg |] eqn:Hcode.
  - destruct (assemble_messages code_msg a) as [a' [msgs | e]] eqn:Hmsgs.
    + pose proof (assemble_messages_state code_msg a) as Ha.
      rewrite Hmsgs in Ha. cbn [fst] in Ha. subst a'.
      rewrite (clean_and_improve_run cfg files join_mode selected a x
                 code_msg msgs Hkey Hcode Hmsgs).
      destruct (call_openai cfg msgs x) as [x' [r | e]]; reflexivity.
    + pose proof (assemble_messages_state code_msg a) as Ha.
      rewrite Hmsgs in Ha. cbn [fst] in Ha. subst a'.
      apply pystr_eqb_neq in Hkey.
      unfold clean_and_improve, ensure_client. rewrite Hkey, Hcode.
      unfold se_bind at 1, in_app at 1, se_ret at 1. cbn [fst snd].
      unfold se_bind at 1, se_lift at 1.
      unfold se_bind at 1, in_app at 1. cbn [fst snd]. now rewrite Hmsgs.
  - apply pystr_eqb_neq in Hkey.
    unfold clean_and_improve, ensure_client. rewrite Hkey, Hcode. reflexivity.
Qed.

(** X14. Without an API key the turn stops before anything else: the page
    shows the missing-key error, the script run is stopped, no message is
    built and the client is not called. *)
Theorem turn_without_key (cfg : sidebar) (files : list (pystr * pystr))
    (join_mode : pystr) (selected : option pystr) (a : streamlit) (x : api C) :
  api_key cfg = [] ->
  clean_and_improve cfg files join_mode selected (a, x)
  = ((Streamlit (session_state a)
        (page a ++
         [StError ([0x1F511] ++ lit " API Key missing. Place it in the sidebar or in your .env file (OPENAI_API_KEY).")]),
      x),
     Raise (Exception "StopException" [])).
Proof.
  intros Hkey. unfold clean_and_improve, ensure_client. rewrite Hkey.
  reflexivity.
Qed.

(** X15. When [call_openai] gives up, the turn ends normally: the page
    gets one error line with the text of the failure and nothing else, no
    answer and no download. *)
Theorem turn_failure_is_shown (cfg : sidebar) (files : list (pystr * pystr))
    (join_mode : pystr) (selected : option pystr) (a : streamlit) (x x' : api C)
    (code_msg : pystr) (msgs : list pyval) (e : exn) :
  api_key cfg <> [] ->
  code_message files join_mode selected = Ok code_msg ->
  assemble_messages code_msg a = (a, Ok msgs) ->
  call_openai cfg msgs x = (x', Raise e) ->
  clean_and_improve cfg files join_mode selected (a, x)
  = ((Streamlit (session_state a)
        (page a ++ [StError (lit "Ops! An error occurred: " ++ str_exn e)]),
      x'),
     Ok tt).
Proof.
  intros Hkey Hcode Hmsgs Hcall.
  rewrite (clean_and_improve_run cfg files join_mode selected a x
             code_msg msgs Hkey Hcode Hmsgs).
  now rewrite Hcall.
Qed.


(** X17. A history message without a role ends the turn before any call:
    the [KeyError] or [TypeError] of the first such message leaves the
    handler, which has drawn nothing and has not called the client. *)
Theorem turn_with_bad_history (cfg : sidebar) (files : list (pystr * pystr))
    (join_mode : pystr) (selected : option pystr) (a : streamlit) (x : api C)
    (code_msg prompt : pystr) (good rest : list pyval) (bad : pyval) (e : exn) :
  api_key cfg <> [] ->
  code_message files join_mode selected = Ok code_msg ->
  build_system_prompt (session_state a) = Ok prompt ->
  session_state a !! lit "messages" = Some (PList (good ++ bad :: rest)) ->
  Forall (fun m => exists role, py_getitem m (lit "role") = Ok role) good ->
  py_getitem bad (lit "role") = Raise e ->
  clean_and_improve cfg files join_mode selected (a, x) = ((a, x), Raise e).
Proof.
  intros Hkey Hcode Hprompt Hmsgs Hgood Hbad. apply pystr_eqb_neq in Hkey.
  unfold clean_and_improve, ensure_client. rewrite Hkey, Hcode.
  unfold se_bind at 1, in_app at 1, se_ret at 1. cbn [fst snd].
  unfold se_bind at 1, se_lift at 1.
  unfold se_bind at 1, in_app at 1. cbn [fst snd].
  unfold assemble_messages, se_bind, state_getitem, se_lift, se_ret.
  rewrite Hprompt, Hmsgs. cbn [py_iter].
  now rewrite (replay_history_stops good rest bad e Hgood Hbad).
Qed.

End Outcomes.

(** ** Outcomes of the client *)

Section ClientOutcomes.
Context {C : Type} `{ChatClient C}.

(** X18. [call_openai] returns the answer of the first call that
    succeeds, right after that call, having slept 1.2 seconds once for
    every call that failed before it: one call and no sleep when the first
    call succeeds, two calls and one sleep when the second does, three
    calls and two sleeps when the third does. When the three calls fail it
    sleeps a third time and raises a [RuntimeError] whose text is
    [Contact OpenAI: ] and the text of the third failure, whatever the
    class of that failure. It raises in no other case. *)
Theorem call_openai_outcomes (cfg : sidebar) (msgs : list pyval) (w : api C) :
  let req := Request (model cfg) msgs (temperature cfg) (max_tokens cfg) in
  (forall c1 r,
     chat_create req (client w) = (c1, Ok r) ->
     call_openai cfg msgs w = (Api c1 (trace w ++ [ApiCall req]), Ok r))
  /\ (forall c1 e1 c2 r,
        chat_create req (client w) = (c1, Raise e1) ->
        chat_create req c1 = (c2, Ok r) ->
        call_openai cfg msgs w
        = (Api c2 (trace w ++ [ApiCall req; Sleep 1.2%Q; ApiCall req]), Ok r))
  /\ (forall c1 e1 c2 e2 c3 r,
        chat_create req (client w) = (c1, Raise e1) ->
        chat_create req c1 = (c2, Raise e2) ->
        chat_create req c2 = (c3, Ok r) ->
        call_openai cfg msgs w
        = (Api c3 (trace w ++ [ApiCall req; Sleep 1.2%Q; ApiCall req;
                               Sleep 1.2%Q; ApiCall req]), Ok r))
  /\ (forall c1 e1 c2 e2 c3 e3,
        chat_create req (client w) = (c1, Raise e1) ->
        chat_create req c1 = (c2, Raise e2) ->
        chat_create req c2 = (c3, Raise e3) ->
        call_openai cfg msgs w
        = (Api c3 (trace w ++ [ApiCall req; Sleep 1.2%Q; ApiCall req;
                               Sleep 1.2%Q; ApiCall req; Sleep 1.2%Q]),
           Raise (Exception "RuntimeError"
                    (lit "Contact OpenAI: " ++ str_exn e3))))
  /\ (forall e,
        snd (call_openai cfg msgs w) = Raise e ->
        exists c1 e1 c2 e2 c3 e3,
          chat_create req (client w) = (c1, Raise e1)
          /\ chat_create req c1 = (c2, Raise e2)
          /\ chat_create req c2 = (c3, Raise e3)
          /\ e = Exception "RuntimeError"
                   (lit "Contact OpenAI: " ++ str_exn e3)).
Proof.
  intros req. pose proof (call_openai_runs cfg msgs w) as Hrun. fold req in Hrun.
  cbv zeta in Hrun. rewrite Hrun.
  split; [| split; [| split; [| split]]].
  - intros c1 r H1. now rewrite H1.
  - intros c1 e1 c2 r H1 H2. now rewrite H1, H2.
  - intros c1 e1 c2 e2 c3 r H1 H2 H3. now rewrite H1, H2, H3.
  - intros c1 e1 c2 e2 c3 e3 H1 H2 H3. now rewrite H1, H2, H3.
  - intros e.
    destruct (chat_create req (client w)) as [c1 [r1 | e1]] eqn:H1;
      [discriminate |].
    destruct (chat_create req c1) as [c2 [r2 | e2]] eqn:H2; [discriminate |].
    destruct (chat_create req c2) as [c3 [r3 | e3]] eqn:H3; [discriminate |].
    cbn [snd]. intros [= <-]. exists c1, e1, c2, e2, c3, e3.
    repeat split; assumption.
Qed.

End ClientOutcomes.

(** ** What the extractor returns *)

Lemma lstrip_split (s : pystr) :
  exists w, s = w ++ lstrip s /\ forallb isspace w = true.
Proof.
  induction s as [| c s (w & Hs & Hw)]; [now exists [] |].
  cbn [lstrip]. destruct (isspace c) eqn:Hc; [| now exists []].
  exists (c :: w). cbn [forallb List.app]. rewrite Hc, Hw. now rewrite <- Hs.
Qed.

Lemma lstrip_head (s : pystr) (c : N) (t : pystr) :
  lstrip s = c :: t -> isspace c = false.
Proof.
  induction s as [| d s IH]; cbn [lstrip]; [discriminate |].
  destruct (isspace d) eqn:Hd; [exact IH |]. now intros [= <- _].
Qed.

(** The trimmed string is a piece of the string. *)
Lemma strip_infix (s : pystr) : exists w1 w2, s = w1 ++ strip s ++ w2.
Proof.
  destruct (lstrip_split s) as (w1 & Hs & _).
  destruct (lstrip_split (rev (lstrip s))) as (w2 & Hr & _).
  exists w1, (rev w2). unfold strip, rstrip.
  rewrite <- rev_app_distr, <- Hr, rev_involutive. exact Hs.
Qed.

Lemma strip_first (s : pystr) (c : N) (t : pystr) :
  strip s = c :: t -> isspace c = false.
Proof.
  intros Hstrip.
  destruct (lstrip_split (rev (lstrip s))) as (w & Hr & _).
  apply (f_equal (@rev N)) in Hr. rewrite rev_involutive, rev_app_distr in Hr.
  fold (rstrip (lstrip s)) in Hr. fold (strip s) in Hr.
  rewrite Hstrip in Hr. cbn [List.app] in Hr.
  now apply (lstrip_head s c (t ++ rev w)).
Qed.

Lemma strip_last (s : pystr) (c : N) (t : pystr) :
  strip s = t ++ [c] -> isspace c = false.
Proof.
  unfold strip, rstrip. intros Hstrip.
  apply (f_equal (@rev N)) in Hstrip.
  rewrite rev_involutive, rev_app_distr in Hstrip. cbn [rev List.app] in Hstrip.
  now apply lstrip_head in Hstrip.
Qed.

Lemma contains_infix (s a b p : pystr) :
  contains s p = true -> contains (a ++ s ++ b) p = true.
Proof.
  rewrite !contains_iff. intros (u & v & ->). exists (a ++ u), (v ++ b).
  now rewrite <- !app_assoc.
Qed.

Lemma fenced_body_no_fence (s tag body post : pystr) :
  fenced_block s tag body post -> contains body fence = false.
Proof.
  intros (_ & _ & Hfirst).
  destruct (contains body fence) eqn:Hc; [| reflexivity].
  apply contains_iff in Hc as (u & v & ->).
  assert (Hstart : startswith ((fence ++ v) ++ fence ++ post) fence = false)
    by (apply (Hfirst u (fence ++ v)); [reflexivity | discriminate]).
  rewrite <- app_assoc, (proj2 (startswith_iff _ _)) in Hstart by eauto.
  discriminate Hstart.
Qed.

(** X19. What the extractor returns holds no triple backtick, and it
    neither starts nor ends with a whitespace character. *)
Theorem extracted_code_is_clean (text code : pystr) :
  extract_code_block text = Some code ->
  contains code fence = false
  /\ (forall c t, code = c :: t -> isspace c = false)
  /\ (forall c t, code = t ++ [c] -> isspace c = false).
Proof.
  rewrite extract_code_block_eq.
  destruct (first_block text) as [body |] eqn:Hb; [| discriminate].
  intros [= <-].
  destruct (first_block_sound _ _ Hb) as (pre & s & tag & post & _ & Hblock).
  split; [| split].
  - destruct (contains (strip body) fence) eqn:Hc; [| reflexivity].
    destruct (strip_infix body) as (w1 & w2 & Hbody).
    apply (contains_infix _ w1 w2) in Hc. rewrite <- Hbody in Hc.
    now rewrite (fenced_body_no_fence s tag body post Hblock) in Hc.
  - apply strip_first.
  - apply strip_last.
Qed.

(** ** The payload read back *)

Lemma startswith_fence_app (u t : pystr) (c : N) :
  startswith u fence = false -> c <> 96 ->
  startswith (u ++ c :: t) fence = false.
Proof.
  intros Hu Hc. apply N.eqb_neq in Hc. rewrite N.eqb_sym in Hc.
  unfold startswith in *. change fence with [96; 96; 96] in *.
  destruct u as [| u1 [| u2 [| u3 u]]]; cbn [List.app strip_prefix] in *;
    repeat match goal with
           | |- context [96 =? ?x] => destruct (96 =? x) eqn:?
           end;
    try reflexivity; try discriminate; congruence.
Qed.

Lemma until_fence_past_text (text t : pystr) (c : N) :
  contains text fence = false -> c <> 96 ->
  until_fence (text ++ c :: t) = option_map (List.app text) (until_fence (c :: t)).
Proof.
  intros Htext Hc. induction text as [| d text IH].
  - cbn [List.app]. now destruct (until_fence (c :: t)).
  - cbn [contains] in Htext. apply orb_false_iff in Htext as [Hstart Htext].
    cbn [List.app]. rewrite until_fence_cons.
    pose proof (startswith_fence_app (d :: text) t c Hstart Hc) as Hstart'.
    cbn [List.app] in Hstart'. rewrite Hstart', (IH Htext).
    now destruct (until_fence (c :: t)).
Qed.

Lemma until_fence_after_newline (text post : pystr) :
  contains text fence = false ->
  until_fence ((text ++ nl) ++ fence ++ post) = Some (text ++ nl).
Proof.
  intros Htext. rewrite <- app_assoc. cbn [nl List.app].
  rewrite (until_fence_past_text text (fence ++ post) 10 Htext) by discriminate.
  rewrite until_fence_cons.
  replace (startswith (10 :: fence ++ post) fence) with false by reflexivity.
  rewrite until_fence_unfold. unfold startswith. now rewrite strip_prefix_app.
Qed.

Lemma split_inside_prefix (pre s pre' s' : pystr) :
  pre ++ s = pre' ++ s' -> (length pre' < length pre)%nat ->
  exists c t, s' = c :: t /\ In c pre.
Proof.
  revert pre. induction pre' as [| q pre' IH]; intros pre Heq Hlen.
  - destruct pre as [| p pre]; [cbn in Hlen; lia |].
    cbn [List.app] in Heq. exists p, (pre ++ s). split; [now symmetry | now left].
  - destruct pre as [| p pre]; [cbn in Hlen; lia |].
    injection Heq as _ Heq. cbn [length] in Hlen.
    destruct (IH pre Heq ltac:(lia)) as (c & t & Hs' & Hin).
    exists c, t. split; [exact Hs' | now right].
Qed.

Lemma block_at_no_backtick (c : N) (t : pystr) :
  c <> 96 -> block_at (c :: t) = None.
Proof.
  intros Hc. apply N.eqb_neq in Hc. rewrite N.eqb_sym in Hc.
  unfold block_at. change fence with [96; 96; 96]. cbn [strip_prefix].
  now rewrite Hc.
Qed.

Lemma strip_trailing_newline (s : pystr) : strip (s ++ nl) = strip s.
Proof.
  unfold strip, rstrip. f_equal.
  assert (Hl : lstrip (s ++ nl) = lstrip s ++ nl \/
               (lstrip (s ++ nl) = [] /\ lstrip s = [])).
  { induction s as [| c s IH]; [now right |].
    cbn [List.app lstrip]. destruct (isspace c); [exact IH | now left]. }
  destruct Hl as [-> | [-> ->]]; [| reflexivity].
  rewrite rev_app_distr. reflexivity.
Qed.

(** X20. The payload of the selected-file mode reads back: when the name
    of the file holds no backtick and its text no triple backtick, the
    extractor applied to the message that carries the file returns the
    text of the file, trimmed. *)
Theorem extract_of_code_message (files : list (pystr * pystr))
    (name text : pystr) :
  files_lookup files name = Some text ->
  name <> [] ->
  Forall (fun c => c <> 96) name ->
  contains text fence = false ->
  exists code_msg,
    code_message files (lit "Process SELECTED file") (Some name) = Ok code_msg
    /\ extract_code_block code_msg = Some (strip text).
Proof.
  intros Hfile Hne Hname Htext.
  unfold code_message. rewrite pystr_eqb_refl. cbn [truthy_opt andb].
  apply pystr_eqb_neq in Hne. rewrite Hne. cbn [negb default from_option id].
  rewrite Hfile. eexists. split; [reflexivity |].
  set (pre := lit "Received code (file: " ++ name ++ lit "):" ++ nl).
  set (s := fence ++ lit "auto" ++ nl ++ (text ++ nl) ++ fence ++ []).
  replace (lit "Received code (file: " ++ name ++ lit "):" ++ nl
           ++ lit "```auto" ++ nl ++ text ++ nl ++ lit "```")
    with (pre ++ s).
  2:{ unfold pre, s. rewrite <- !app_assoc, app_nil_r. reflexivity. }
  rewrite extract_code_block_eq.
  rewrite (first_block_leftmost pre s (text ++ nl)).
  - cbn [option_map]. now rewrite strip_trailing_newline.
  - apply block_at_complete with (lit "auto") [].
    apply fenced_block_check; [reflexivity | reflexivity |].
    now apply until_fence_after_newline.
  - intros pre' s' Heq Hlen.
    destruct (split_inside_prefix pre s pre' s' Heq Hlen) as (c & t & -> & Hin).
    apply block_at_no_backtick. intros ->.
    unfold pre in Hin. rewrite !in_app_iff in Hin.
    destruct Hin as [Hin | [Hin | [Hin | Hin]]].
    + vm_compute in Hin. intuition discriminate.
    + rewrite Forall_forall in Hname. apply list_elem_of_In in Hin.
      now apply (Hname 96).
    + vm_compute in Hin. intuition discriminate.
    + vm_compute in Hin. intuition discriminate.
Qed.

(** ** Names that are listed but not kept *)

Section ListedNames.
Context `{UnicodeData} `{JsonCodec}.

(** X21. A file of [data/] whose name holds a character that
    [session_path] does not keep is listed as a session, but the Load
    handler reads the file of the sanitized name instead: another file, or
    none, and then the page reports that the session could not be
    loaded. *)
Theorem listed_name_with_unsafe_character (fs : filesystem) (s : pystr)
    (a : streamlit) :
  Forall (fun c => c <> 47) s ->
  is_Some (files fs !! (lit "data/" ++ s ++ lit ".json")) ->
  List.filter session_safe_char s <> s ->
  s ∈ list_sessions fs
  /\ session_path s <> lit "data/" ++ s ++ lit ".json"
  /\ load_session fs s = load_session fs (List.filter session_safe_char s)
  /\ (files fs !! session_path s = None -> s <> lit "(select)" ->
      on_load_click fs s a
      = (Streamlit (session_state a)
           (page a ++ [StError (lit "The session could not be loaded.")]),
         Ok tt)).
Proof.
  intros Hslash Hfile Hunsafe. split; [| split; [| split]].
  - apply list_sessions_paths. exists (lit "data/" ++ s ++ lit ".json").
    split; [exact Hfile |]. unfold dir_entry.
    change (DATA_DIR ++ lit "/") with (lit "data/").
    rewrite strip_prefix_app, first_component_no_slash.
    + destruct s; reflexivity.
    + apply Forall_app. split; [exact Hslash |]. repeat constructor; discriminate.
  - rewrite session_path_eq. intros Heq.
    apply app_inv_head, app_inv_tail in Heq. contradiction.
  - unfold load_session. now rewrite session_path_of_stem.
  - intros Hnone Hsel. apply on_load_click_not_found; [exact Hnone | | exact Hsel].
    intros ->. now destruct Hunsafe.
Qed.

End ListedNames.

(** * Examples for the further properties *)




(** X7 on the name [???]. *)
Lemma unnamed_session_not_loadable_witness :
  session_path (lit "???") = lit "data/.json"
  /\ [] ∈ list_sessions
            (fst (save_session sample_now (lit "???") sample_state empty_fs))
  /\ on_load_click
       (fst (save_session sample_now (lit "???") sample_state empty_fs)) []
       (Streamlit sample_state [])
     = (Streamlit sample_state [], Ok tt).
Proof.
  apply unnamed_session_not_loadable; reflexivity.
Defined.

(** X8 on the session file of [sample_fs], loaded over a state that holds
    uploads. *)
Lemma load_replaces_five_fields_witness :
  session_state
    (fst (on_load_click sample_fs (lit "demo")
            (Streamlit {[ lit "uploaded_files" := PDict [] ]} [])))
  !! lit "uploaded_files"
  = Some (PDict [])
  /\ session_state
       (fst (on_load_click sample_fs (lit "demo")
               (Streamlit {[ lit "uploaded_files" := PDict [] ]} [])))
     !! lit "current_session_name"
     = Some (PStr (lit "demo")).
Proof.
  pose proof (load_replaces_five_fields sample_fs (lit "demo")
                (Streamlit {[ lit "uploaded_files" := PDict [] ]} [])
                _ ltac:(discriminate) ltac:(discriminate)
                ltac:(vm_compute; reflexivity) ltac:(discriminate)) as Hthm.
  cbv zeta in Hthm. destruct Hthm as (_ & Hother & Hname & _).
  split; [| exact Hname].
  rewrite Hother.
  - apply lookup_singleton_eq.
  - cbn [In]. intros Hin.
    repeat (destruct Hin as [Hin | Hin];
            [vm_compute in Hin; discriminate Hin |]).
    exact Hin.
Defined.

(** X9 on a file that holds a list and on a file that holds [{}]. *)
Lemma load_rejects_non_object_witness :
  @on_load_click latin1_only tiny_codec tiny_fs (lit "list")
    (Streamlit sample_state [])
  = (Streamlit sample_state [],
     Raise (Exception "AttributeError" (lit "object has no attribute 'get'")))
  /\ @on_load_click latin1_only tiny_codec tiny_fs (lit "empty")
       (Streamlit sample_state [])
     = (Streamlit sample_state
          [StError (lit "The session could not be loaded.")],
        Ok tt).
Proof.
  split.
  - apply (@load_rejects_non_object latin1_only tiny_codec tiny_fs (lit "list")
             (Streamlit sample_state []) (PList [PInt 1])).
    + discriminate.
    + discriminate.
    + vm_compute. reflexivity.
    + discriminate.
  - apply (@load_rejects_non_object latin1_only tiny_codec tiny_fs (lit "empty")
             (Streamlit sample_state []) (PDict [])).
    + discriminate.
    + discriminate.
    + vm_compute. reflexivity.
    + now intros d [= <-].
Defined.

(** X10 on a state that has a version of its own and no uploads. *)
Lemma initial_status_defaults_witness :
  initial_status {[ lit "nx_version" := PStr (lit "NX 2406") ]}
  !! lit "nx_version"
  = Some (PStr (lit "NX 2406"))
  /\ is_Some (initial_status {[ lit "nx_version" := PStr (lit "NX 2406") ]}
              !! lit "uploaded_files").
Proof.
  destruct (initial_status_defaults {[ lit "nx_version" := PStr (lit "NX 2406") ]})
    as (Hkeep & Hpresent & _).
  split.
  - apply Hkeep. apply lookup_singleton_eq.
  - apply Hpresent. cbn [In]. auto.
Defined.

(** X11 on two uploads over a fresh state. *)
Lemma on_upload_replaces_witness :
  exists state' d,
    on_upload sample_uploads (Streamlit (initial_status ∅) [])
    = (Streamlit state' [StSuccess (lit "2 archivo(s) cargado(s).")], Ok tt)
    /\ state' !! lit "uploaded_files_meta"
       = Some (PList [PDict [(lit "name", PStr (lit "A.py"));
                             (lit "chars", PInt 10)];
                      PDict [(lit "name", PStr (lit "B.py"));
                             (lit "chars", PInt 20)]])
    /\ state' !! lit "uploaded_files" = Some (PDict d)
    /\ dict_lookup d (lit "B.py") = Some (PStr (lit "01234567890123456789")).
Proof.
  destruct (on_upload_replaces sample_uploads (Streamlit (initial_status ∅) []))
    as [_ Hrun].
  destruct (Hrun ltac:(discriminate))
    as (state' & d & Hup & Hmeta & Hfiles & Hlookup & _).
  exists state', d. split; [exact Hup |]. split; [exact Hmeta |].
  split; [exact Hfiles |]. rewrite Hlookup. reflexivity.
Defined.

(** X12 on the same two uploads. *)
Lemma upload_then_unified_witness :
  code_message
    (uploaded_items
       (session_state (fst (on_upload sample_uploads
                              (Streamlit (initial_status ∅) [])))))
    unified_mode None
  = Ok (lit "Received code (multiple files unified):" ++ nl
        ++ lit "```auto" ++ nl
        ++ lit "// ==== ARCHIVO: A.py ====" ++ nl ++ lit "0123456789"
        ++ nl ++ nl
        ++ lit "// ==== ARCHIVO: B.py ====" ++ nl ++ lit "01234567890123456789"
        ++ nl ++ lit "```").
Proof.
  pose proof (upload_then_unified sample_uploads
                (Streamlit (initial_status ∅) []) unified_mode None
                ltac:(discriminate)) as Hthm.
  cbv zeta in Hthm. destruct Hthm as (_ & _ & Hmsg).
  - repeat constructor; cbn [In List.map fst]; intros Hin.
    + destruct Hin as [Hin | []]. vm_compute in Hin. discriminate Hin.
    + exact Hin.
  - reflexivity.
  - rewrite Hmsg. reflexivity.
Defined.

(** X14 with the key field left empty. *)
Lemma turn_without_key_witness :
  trace (snd (fst (clean_and_improve
                     (Sidebar [] (lit "gpt-4o-mini") 0.2%Q 1600%Z)
                     sample_files unified_mode None
                     (Streamlit sample_turn_state [], Api [Ok (Some (lit "done"))] []))))
  = []
  /\ snd (clean_and_improve
            (Sidebar [] (lit "gpt-4o-mini") 0.2%Q 1600%Z)
            sample_files unified_mode None
            (Streamlit sample_turn_state [], Api [Ok (Some (lit "done"))] []))
     = Raise (Exception "StopException" []).
Proof.
  rewrite (turn_without_key (Sidebar [] (lit "gpt-4o-mini") 0.2%Q 1600%Z)
             sample_files unified_mode None (Streamlit sample_turn_state [])
             (Api [Ok (Some (lit "done"))] []) eq_refl).
  split; reflexivity.
Defined.

(** X15 with a client that fails three times. *)
Lemma turn_failure_is_shown_witness :
  page (fst (fst (clean_and_improve sample_cfg sample_files unified_mode None
                    (Streamlit sample_turn_state [], Api three_failures []))))
  = [StError (lit "Ops! An error occurred: Contact OpenAI: Overloaded.")]
  /\ snd (clean_and_improve sample_cfg sample_files unified_mode None
            (Streamlit sample_turn_state [], Api three_failures []))
     = Ok tt.
Proof.
  erewrite turn_failure_is_shown;
    [| discriminate | reflexivity | reflexivity | lazy; reflexivity].
  split; reflexivity.
Defined.


(** X18 with a client that fails once and then answers. *)
Lemma call_openai_outcomes_witness :
  call_openai sample_cfg []
    (Api [Raise (Exception "APITimeoutError" (lit "Request timed out."));
          Ok (Some (lit "done"))] [])
  = (Api []
       [ApiCall (Request (lit "gpt-4o-mini") [] 0.2%Q 1600%Z); Sleep 1.2%Q;
        ApiCall (Request (lit "gpt-4o-mini") [] 0.2%Q 1600%Z)],
     Ok (Some (lit "done"))).
Proof.
  destruct (call_openai_outcomes sample_cfg []
              (Api [Raise (Exception "APITimeoutError" (lit "Request timed out."));
                    Ok (Some (lit "done"))] []))
    as (_ & Hsecond & _).
  eapply Hsecond; reflexivity.
Defined.

(** X17 with a history whose second message has no role. *)
Lemma turn_with_bad_history_witness :
  clean_and_improve sample_cfg sample_files unified_mode None
    (Streamlit
       (<[lit "messages" :=
            PList ([message (lit "user") (lit "hello")]
                   ++ PDict [(lit "content", PStr (lit "hi"))] :: [])]>
          sample_state) [],
     Api [Ok (Some (lit "done"))] [])
  = ((Streamlit
        (<[lit "messages" :=
             PList ([message (lit "user") (lit "hello")]
                    ++ PDict [(lit "content", PStr (lit "hi"))] :: [])]>
           sample_state) [],
      Api [Ok (Some (lit "done"))] []),
     Raise (Exception "KeyError" (lit "'role'"))).
Proof.
  eapply turn_with_bad_history.
  - discriminate.
  - reflexivity.
  - reflexivity.
  - reflexivity.
  - repeat constructor. eexists. reflexivity.
  - reflexivity.
Defined.

(** X19 on [sample_answer]. *)
Lemma extracted_code_is_clean_witness :
  extract_code_block sample_answer = Some (lit "print(1)")
  /\ contains (lit "print(1)") fence = false.
Proof.
  assert (Hex : extract_code_block sample_answer = Some (lit "print(1)"))
    by (vm_compute; reflexivity).
  split; [exact Hex |].
  now destruct (extracted_code_is_clean sample_answer (lit "print(1)") Hex).
Defined.

(** X20 on the file [A.py]. *)
Lemma extract_of_code_message_witness :
  exists code_msg,
    code_message sample_files (lit "Process SELECTED file") (Some (lit "A.py"))
    = Ok code_msg
    /\ extract_code_block code_msg = Some (lit "print(1)").
Proof.
  destruct (extract_of_code_message sample_files (lit "A.py") (lit "print(1)"))
    as (code_msg & Hmsg & Hex).
  - reflexivity.
  - discriminate.
  - repeat constructor; discriminate.
  - reflexivity.
  - exists code_msg. split; [exact Hmsg |]. rewrite Hex. reflexivity.
Defined.

(** X21 on the file [a+b.json]. *)
Lemma listed_name_with_unsafe_character_witness :
  lit "a+b" ∈ list_sessions plus_fs
  /\ on_load_click plus_fs (lit "a+b") (Streamlit sample_state [])
     = (Streamlit sample_state
          [StError (lit "The session could not be loaded.")],
        Ok tt).
Proof.
  destruct (listed_name_with_unsafe_character plus_fs (lit "a+b")
              (Streamlit sample_state []))
    as (Hlisted & _ & _ & Hload).
  - repeat constructor; discriminate.
  - vm_compute. eauto.
  - intros Heq. vm_compute in Heq. discriminate Heq.
  - split; [exact Hlisted |]. apply Hload.
    + vm_compute. reflexivity.
    + discriminate.
Defined.

(** X5 on the store that holds [a+b.json]. *)
Lemma list_sessions_entries_witness :
  lit "a+b" ∈ list_sessions plus_fs /\ ~ lit "a" ∈ list_sessions plus_fs.
Proof.
  split.
  - apply list_sessions_entries. exists (lit "data/a+b.json").
    split; [vm_compute; eauto | reflexivity].
  - intros Hin. apply list_sessions_entries in Hin as (p & [text Hp] & Hentry).
    unfold plus_fs in Hp. cbn [files] in Hp.
    apply lookup_singleton_Some in Hp as [<- _].
    vm_compute in Hentry. discriminate Hentry.
Defined.
